(** * Predictive maintenance service: a shallow embedding of [service.py]

    The development follows [PredictiveMaintenanceService]: the polling
    loop, the reading store (the [sensor_data] table), the bounded
    temperature buffer with its one-shot isolation forest, the alert
    messages and the status file.

    Numbers that arrive as JSON numbers are kept as exact rationals: the
    only arithmetic the service performs on them is the comparison with
    [225.0] and the rendering with one decimal. *)

From Stdlib Require Import List String Ascii Bool ZArith QArith Qabs Qround Lia Lqa.
From Stdlib Require Import DecimalString.
Import ListNotations.

Local Open Scope string_scope.
Local Open Scope list_scope.

(** ** Values and readings *)

(** What a field of the decoded JSON payload can hold: a number, a string
    or [None]. *)
Inductive pyval : Type :=
| PyNum (q : Q)
| PyStr (s : string)
| PyNone.

(** The decoded payload of the simulator, keyed as in [data[...]]. The
    three fields the service compares or interpolates as text are strings;
    the numeric fields are whatever the payload carried. A payload that
    lacks one of the six keys raises [KeyError] on the first line of
    [store_data], before anything is written: like a failed exchange it
    is a [Raise] of [http] below. *)
Record reading : Type := mkReading {
  timestamp : string;
  nozzle_temp : pyval;
  bed_temp : pyval;
  printer_status : string;
  filament_status : string;
  print_progress : pyval
}.

(** Exceptions the service can meet. All of them derive from [Exception]. *)
Inductive exn : Type :=
| RequestException      (* requests: timeout, connection, HTTP status, bad JSON *)
| DecodeError           (* a decoding error that is not a RequestException *)
| KeyError              (* a payload without one of the six keys *)
| OperationalError      (* sqlite3: the database cannot be written *)
| TypeError
| ValueError
| EstimatorError.       (* raised inside IsolationForest.fit / predict *)

Inductive outcome (A : Type) : Type :=
| Ret (a : A)
| Raise (e : exn).
Arguments Ret {A} a.
Arguments Raise {A} e.

(** ** Text helpers *)

(** [needle in hay] on Python strings. *)
Fixpoint contains (needle hay : string) : bool :=
  String.prefix needle hay
  || match hay with
     | EmptyString => false
     | String _ rest => contains needle rest
     end.

(** Nearest integer, ties to the even neighbour. *)
Definition round_half_even (q : Q) : Z :=
  let n := Qnum q in
  let d := Z.pos (Qden q) in
  let f := (n / d)%Z in
  match (2 * (n mod d) ?= d)%Z with
  | Lt => f
  | Gt => (f + 1)%Z
  | Eq => if Z.even f then f else (f + 1)%Z
  end.

Definition decimal (z : Z) : string :=
  NilEmpty.string_of_uint (N.to_uint (Z.to_N z)).

(** [f"{q:.1f}"]. *)
Definition format_1f (q : Q) : string :=
  let t := round_half_even (Qabs q * 10) in
  (if Qlt_le_dec q 0 then "-" else "")
  ++ decimal (t / 10) ++ "." ++ decimal (t mod 10).

(** [f"{v:.1f}"] on an arbitrary payload value: only numbers accept the
    format code. *)
Definition format_1f_val (v : pyval) : outcome string :=
  match v with
  | PyNum q => Ret (format_1f q)
  | PyStr _ => Raise ValueError
  | PyNone => Raise TypeError
  end.

(** [v > 225.0]. *)
Definition gt_threshold (v : pyval) : outcome bool :=
  match v with
  | PyNum q => Ret (if Qlt_le_dec 225 q then true else false)
  | PyStr _ => Raise TypeError
  | PyNone => Raise TypeError
  end.

(** ** Alert messages *)

Definition degree_sign : string :=
  String (ascii_of_nat 194) (String (ascii_of_nat 176) EmptyString).

Definition hard_failure_alert (ts : string) : string :=
  "Hard Failure Alert: Printer in error state at " ++ ts.

Definition filament_jam_alert (ts : string) : string :=
  "Filament Jam Alert: Filament is jammed at " ++ ts.

Definition predictive_alert (temp ts : string) : string :=
  "Predictive Alert: Potential Overheating Detected! Temp: "
  ++ temp ++ degree_sign ++ "C at " ++ ts.

(** ** Collections and files *)

(** [deque(maxlen=n).append(x)]: push on the right, then drop from the left
    when the bound is exceeded. *)
Definition deque_append {A : Type} (bound : nat) (x : A) (d : list A) : list A :=
  let d' := d ++ [x] in
  if (bound <? List.length d')%nat then tl d' else d'.

Definition maxlen : nat := 50.

Inductive level : Type := INFO | WARNING | ERROR.

(** Lines printed on the console. *)
Inductive line : Type :=
| LnPollError (e : exn)                 (* Error polling simulator: {e} *)
| LnTrained                             (* Anomaly detection model trained *)
| LnAlert (alert : string)              (* ALERT: {alert} *)
| LnStatus (st nozzle bed : string)     (* Status: .., Nozzle: ..C, Bed: ..C *)
| LnLoopError (e : exn).                (* Error in main loop: {e} *)

(** The dictionary handed to [json.dump]. *)
Record status : Type := mkStatus {
  current_data : reading;
  active_alerts : list string;
  last_updated : string;
  system_status : string
}.

(** The [system_status] entry of the dictionary. *)
Definition system_status_of (alerts : list string) : string :=
  if existsb (contains "Hard Failure") alerts then "error"
  else match alerts with
       | [] => "normal"
       | _ :: _ => "warning"
       end.

(** The last [n] elements of a list. *)
Definition lastn {A : Type} (n : nat) (l : list A) : list A :=
  skipn (List.length l - n) l.

(** What one turn of the loop receives from outside: the HTTP exchange,
    whether the database can be written, and the clock. *)
Record cycle_env : Type := mkEnv {
  http : outcome reading;
  db_up : bool;
  now : string
}.

(** ** Sample readings *)

Definition reading_at (ts : string) (temp : pyval) (ps fs : string) : reading :=
  mkReading ts temp (PyNum (601 # 10)) ps fs (PyNum (452 # 10)).

Definition printing_reading : reading :=
  reading_at "2024-05-01T10:00:00" (PyNum (2105 # 10)) "printing" "ok".

Definition jam_reading : reading :=
  reading_at "2024-05-01T10:02:30" (PyNum (2105 # 10)) "printing" "jammed".

Definition hot_reading : reading :=
  reading_at "2024-05-01T10:03:00" (PyNum 230) "printing" "ok".

Definition failed_hot_reading : reading :=
  reading_at "2024-05-01T10:04:00" (PyNum 230) "error" "jammed".

Definition text_reading : reading :=
  reading_at "2024-05-01T10:04:30" (PyStr "n/a") "printing" "ok".

Definition far_reading : reading :=
  reading_at "2024-05-01T10:04:35" (PyNum (-5000)) "printing" "ok".

Definition clock : string := "2024-05-01T10:05:00.000000".

(** A turn whose poll and insert succeed. *)
Definition turn (data : reading) : cycle_env := mkEnv (Ret data) true clock.

(** Thirty ordinary turns. *)
Definition warm_up : list cycle_env := repeat (turn printing_reading) 30.

(** ** A small forest for examples

    A forest that keeps its baseline and never votes outlier, and a
    one-line rendering of the status dictionary. *)

Definition baseline_fit (baseline : list pyval) : outcome (list pyval) :=
  Ret baseline.

Definition no_vote (_ : list pyval) (_ : pyval) : outcome bool := Ret false.

Definition status_text (st : status) : string :=
  "{system_status: " ++ system_status st ++ ", active_alerts: "
  ++ String.concat "; " (active_alerts st) ++ "}".

(** A forest that refuses a baseline with a value that is not a number. *)
Definition numeric (v : pyval) : bool :=
  match v with
  | PyNum _ => true
  | _ => false
  end.

Definition strict_fit (baseline : list pyval) : outcome (list pyval) :=
  if forallb numeric baseline then Ret baseline else Raise ValueError.

(** Removing blanks and line ends at both ends of a line, for examples. *)
Definition blank (c : ascii) : bool :=
  (c =? " ")%char || (nat_of_ascii c =? 10)%nat || (nat_of_ascii c =? 13)%nat
  || (nat_of_ascii c =? 9)%nat.

Fixpoint drop_blanks (l : list ascii) : list ascii :=
  match l with
  | c :: rest => if blank c then drop_blanks rest else l
  | [] => []
  end.

Definition trim (s : string) : string :=
  string_of_list_ascii
    (rev (drop_blanks (rev (drop_blanks (list_ascii_of_string s))))).

(** More sample data. *)
Definition failed_text_reading : reading :=
  reading_at "2024-05-01T10:04:40" (PyStr "n/a") "error" "jammed".

Definition drill_reading : reading :=
  reading_at "Hard Failure drill 7" (PyNum (2105 # 10)) "printing" "jammed".

Definition nl : string := String (ascii_of_nat 10) EmptyString.

Definition log_lines : list string :=
  [("first" ++ nl)%string; ("second" ++ nl)%string; ("  " ++ nl)%string;
   (" third " ++ nl)%string].

(** ** The dashboard ([dashboard.py]) *)

(** Calls to Streamlit that put a message on the page. *)
Inductive widget : Type :=
| StInfo (text : string)
| StWarning (text : string)
| StError (text : string)
| StCaption (text : string).

(** The body of [for alert in alerts] in [main]. *)
Definition alert_widget (alert : string) : widget :=
  if contains "Hard Failure" alert then StError ("🔴 " ++ alert)
  else if contains "Predictive Alert" alert then StWarning ("🟡 " ++ alert)
  else if contains "Filament Jam" alert then StError ("🔴 " ++ alert)
  else StInfo ("ℹ️ " ++ alert).


(** The caption [main] shows for [system_status]. *)
Definition status_caption (system_status : string) : widget :=
  if (system_status =? "normal")%string then StCaption "🟢 System Status: Normal"
  else if (system_status =? "warning")%string then StCaption "🟡 System Status: Warning"
  else if (system_status =? "error")%string then StCaption "🔴 System Status: Error"
  else StCaption ("❓ System Status: " ++ system_status).

(** [l[start:]] on a Python list. *)
Definition slice_from {A : Type} (start : Z) (l : list A) : list A :=
  let n := Z.of_nat (List.length l) in
  let i := if (start <? 0)%Z then Z.max 0 (start + n) else Z.min start n in
  skipn (Z.to_nat i) l.

Definition nonempty (s : string) : bool :=
  match s with
  | EmptyString => false
  | String _ _ => true
  end.

(** [load_recent_alerts]. [log_file] is [None] when [alerts.log] does not
    exist, and otherwise what [open] and [readlines] give; [strip] is
    [str.strip]. The second component is the exception handed to
    [st.error], if any. *)
Definition load_recent_alerts (strip : string -> string)
    (log_file : option (outcome (list string))) (count : Z)
  : list string * option exn :=
  match log_file with
  | None => ([], None)
  | Some (Raise e) => ([], Some e)
  | Some (Ret lines) =>
      let recent_lines :=
        if (count <? Z.of_nat (List.length lines))%Z
        then slice_from (- count) lines
        else lines in
      (map strip (filter (fun line => nonempty (strip line)) recent_lines), None)
  end.

(** ** The simulator ([simulator.py]) *)

Definition states : list string :=
  ["idle"; "printing"; "anomaly"; "error"; "printing"].

Definition state_cycle_duration : Q := 60.

(** [x % m] for a positive [m]. *)
Definition qmod (x m : Q) : Q := x - m * inject_Z (Qfloor (x / m)).

(** [int(x)] on a float: truncation toward zero. *)
Definition py_int (x : Q) : Z := Z.quot (Qnum x) (Z.pos (Qden x)).

(** [l[i]] on a Python list; [None] stands for [IndexError]. *)
Definition py_index {A : Type} (l : list A) (i : Z) : option A :=
  let n := Z.of_nat (List.length l) in
  if (i <? 0)%Z then
    if (i + n <? 0)%Z then None else nth_error l (Z.to_nat (i + n))
  else nth_error l (Z.to_nat i).

(** [get_current_state], [elapsed] seconds after the start. [elapsed] is
    the value of the float; for a clock that is not behind the start, [%]
    is exact on floats and the rounding of [/] does not reach the next
    integer, so that [int] gives the index computed here. *)
Definition get_current_state (elapsed : Q) : option string :=
  let cycle_position :=
    qmod elapsed (inject_Z (Z.of_nat (List.length states)) * state_cycle_duration)
    / state_cycle_duration in
  py_index states (py_int cycle_position).

(** What [get_printer_data] hands to [jsonify]: a dictionary, [None]
    when the state is none of the four branches, or the [IndexError] of
    [get_current_state]. *)
Inductive sim_result : Type :=
| SimData (data : reading)
| SimNone
| SimIndexError.

(** [get_printer_data]. The two readings of the clock are [elapsed] (in
    [get_current_state]) and [base_time]; [timestamp] is
    [datetime.now().isoformat()], [u1] and [u2] the two draws of
    [random.uniform]. Sums and products are exact here, where Python
    rounds each to the nearest double. *)
Definition get_printer_data (elapsed base_time : Q) (timestamp : string)
    (u1 u2 : Q) : sim_result :=
  match get_current_state elapsed with
  | None => SimIndexError
  | Some state =>
      if (state =? "idle")%string then
        SimData (mkReading timestamp (PyNum (25 + u1)) (PyNum (25 + u2))
                   "idle" "ok" (PyNum 0))
      else if (state =? "printing")%string then
        let progress := qmod base_time 300 / 300 * 100 in
        SimData (mkReading timestamp (PyNum ((2105 # 10) + u1))
                   (PyNum ((601 # 10) + u2)) "printing" "ok"
                   (PyNum (if Qlt_le_dec progress 100 then progress else 100)))
      else if (state =? "anomaly")%string then
        let elapsed_in_state := qmod base_time state_cycle_duration in
        let temp_increase := elapsed_in_state * (1 # 2) in
        SimData (mkReading timestamp (PyNum ((2105 # 10) + temp_increase + u1))
                   (PyNum ((601 # 10) + u2)) "printing" "ok"
                   (PyNum (452 # 10)))
      else if (state =? "error")%string then
        SimData (mkReading timestamp (PyNum ((2105 # 10) + u1))
                   (PyNum ((601 # 10) + u2)) "error" "jammed"
                   (PyNum (452 # 10)))
      else SimNone
  end.

(** ** The service *)

Section Service.

(** The fitted isolation forest is a library object: [fit] stands for
    [np.array(baseline).reshape(-1, 1)] followed by
    [IsolationForest(contamination=0.1, random_state=42).fit], [predict]
    for [predict([[v]])[0] == -1]; both may raise. [dumps] is
    [json.dumps(status, indent=2)]. *)
Context {model : Type}.
Variable fit : list pyval -> outcome model.
Variable predict : model -> pyval -> outcome bool.
Variable dumps : status -> string.

Record service : Type := mkService {
  db : list reading;                    (* rows of sensor_data, oldest first *)
  alerts_log : list (level * string);   (* records of alerts.log *)
  stdout : list line;
  status_file : string;                 (* bytes of status.json on disk *)
  temp_buffer : list pyval;
  isolation_forest : option model;      (* None until fitted *)
  model_trained : bool
}.

(** [__init__], on a fresh directory or an existing one. *)
Definition init (rows : list reading) (log : list (level * string))
    (file : string) : service :=
  mkService rows log [] file [] None false.

(** *** State and exceptions *)

Definition M (A : Type) : Type := service -> outcome A * service.

Definition ret {A : Type} (a : A) : M A := fun s => (Ret a, s).

Definition raise {A : Type} (e : exn) : M A := fun s => (Raise e, s).

Definition bind {A B : Type} (m : M A) (k : A -> M B) : M B :=
  fun s =>
    match m s with
    | (Ret a, s') => k a s'
    | (Raise e, s') => (Raise e, s')
    end.

Definition lift {A : Type} (o : outcome A) : M A := fun s => (o, s).

Definition gets {A : Type} (f : service -> A) : M A := fun s => (Ret (f s), s).

Definition modify (f : service -> service) : M unit := fun s => (Ret tt, f s).

Definition try_except {A : Type} (body : M A) (handler : exn -> M A) : M A :=
  fun s =>
    match body s with
    | (Ret a, s') => (Ret a, s')
    | (Raise e, s') => handler e s'
    end.

Notation "x <- c ;; k" := (bind c (fun x => k))
  (at level 61, c at next level, right associativity).
Notation "c ;; k" := (bind c (fun _ => k))
  (at level 61, right associativity).

Definition set_db (f : list reading -> list reading) (s : service) : service :=
  mkService (f (db s)) (alerts_log s) (stdout s) (status_file s)
            (temp_buffer s) (isolation_forest s) (model_trained s).

Definition set_alerts_log (f : list (level * string) -> list (level * string))
    (s : service) : service :=
  mkService (db s) (f (alerts_log s)) (stdout s) (status_file s)
            (temp_buffer s) (isolation_forest s) (model_trained s).

Definition set_stdout (f : list line -> list line) (s : service) : service :=
  mkService (db s) (alerts_log s) (f (stdout s)) (status_file s)
            (temp_buffer s) (isolation_forest s) (model_trained s).

Definition set_status_file (f : string -> string) (s : service) : service :=
  mkService (db s) (alerts_log s) (stdout s) (f (status_file s))
            (temp_buffer s) (isolation_forest s) (model_trained s).

Definition set_temp_buffer (f : list pyval -> list pyval) (s : service) : service :=
  mkService (db s) (alerts_log s) (stdout s) (status_file s)
            (f (temp_buffer s)) (isolation_forest s) (model_trained s).

Definition set_fitted (m : model) (s : service) : service :=
  mkService (db s) (alerts_log s) (stdout s) (status_file s)
            (temp_buffer s) (Some m) true.

Definition print (l : line) : M unit := modify (set_stdout (fun out => out ++ [l])).

Definition logging (lv : level) (msg : string) : M unit :=
  modify (set_alerts_log (fun log => log ++ [(lv, msg)])).

(** *** [poll_simulator] *)

Definition poll_simulator (http : outcome reading) : M (option reading) :=
  match http with
  | Ret data => ret (Some data)
  | Raise RequestException => print (LnPollError RequestException) ;; ret None
  | Raise e => raise e
  end.

(** *** [store_data] *)

(** [db] records the payloads handed to [INSERT], in order; what the
    columns of [sensor_data] make of a value when they store it is not
    described here. *)
Definition store_data (db_up : bool) (data : reading) : M unit :=
  if db_up then modify (set_db (fun rows => rows ++ [data]))
  else raise OperationalError.

(** *** [check_immediate_failures] *)

Definition check_immediate_failures (data : reading) : M (list string) :=
  let ts := timestamp data in
  hard <- (if (printer_status data =? "error")%string then
             logging ERROR ("HARD_FAILURE|" ++ ts ++ "|" ++ printer_status data
                            ++ "|Printer error state") ;;
             ret [hard_failure_alert ts]
           else ret []) ;;
  jam <- (if (filament_status data =? "jammed")%string then
            logging WARNING ("FILAMENT_JAM|" ++ ts ++ "|" ++ filament_status data
                             ++ "|Filament blockage") ;;
            ret [filament_jam_alert ts]
          else ret []) ;;
  ret (hard ++ jam).

(** *** [check_predictive_anomalies] *)

Definition train : M unit :=
  buf <- gets temp_buffer ;;
  m <- lift (fit (firstn 30 buf)) ;;
  modify (set_fitted m) ;;
  print LnTrained.

Definition detect (v : pyval) (ts : string) : M (list string) :=
  forest <- gets isolation_forest ;;
  vote <- match forest with
          | Some m => lift (predict m v)
          | None => raise EstimatorError
          end ;;
  temp_threshold_exceeded <- lift (gt_threshold v) ;;
  if vote || temp_threshold_exceeded then
    temp <- lift (format_1f_val v) ;;
    logging WARNING ("PREDICTIVE_ALERT|" ++ ts ++ "|" ++ temp
                     ++ "|Overheating detected") ;;
    ret [predictive_alert temp ts]
  else ret [].

Definition check_predictive_anomalies (data : reading) : M (list string) :=
  let v := nozzle_temp data in
  let ts := timestamp data in
  modify (set_temp_buffer (deque_append maxlen v)) ;;
  n <- gets (fun s => List.length (temp_buffer s)) ;;
  if (n <? 20)%nat then ret []
  else
    trained <- gets model_trained ;;
    (if negb trained && (30 <=? n)%nat then train else ret tt) ;;
    trained <- gets model_trained ;;
    if trained then detect v ts else ret [].

(** *** [update_status_file] *)

(** [open(status_file, 'w')] empties the file; the text produced by
    [json.dump] reaches the disk when the handle is flushed, at the
    latest when the [with] block closes it. *)
Definition open_w : M unit := modify (set_status_file (fun _ => "")).

Definition flush (text : string) : M unit :=
  modify (set_status_file (fun on_disk => (on_disk ++ text)%string)).

Definition dump_steps (st : status) : list (M unit) :=
  [open_w; flush (dumps st)].

Fixpoint sequence (steps : list (M unit)) : M unit :=
  match steps with
  | [] => ret tt
  | step :: rest => step ;; sequence rest
  end.

Definition build_status (now : string) (data : reading) (alerts : list string)
  : status :=
  mkStatus data alerts now (system_status_of alerts).

Definition update_status_file (now : string) (data : reading)
    (alerts : list string) : M unit :=
  sequence (dump_steps (build_status now data alerts)).

(** What a reader opening the file can find while [steps] run: the
    contents before the first step and after each step. *)
Fixpoint visible (steps : list (M unit)) (s : service) : list string :=
  status_file s ::
  match steps with
  | [] => []
  | step :: rest => visible rest (snd (step s))
  end.

(** *** [run] *)

Fixpoint print_alerts (alerts : list string) : M unit :=
  match alerts with
  | [] => ret tt
  | alert :: rest => print (LnAlert alert) ;; print_alerts rest
  end.

(** The body of the [try] block. *)
Definition cycle (env : cycle_env) : M unit :=
  polled <- poll_simulator (http env) ;;
  match polled with
  | None => ret tt
  | Some data =>
      store_data (db_up env) data ;;
      immediate_alerts <- check_immediate_failures data ;;
      predictive_alerts <- check_predictive_anomalies data ;;
      let all_alerts := immediate_alerts ++ predictive_alerts in
      update_status_file (now env) data all_alerts ;;
      print_alerts all_alerts ;;
      nozzle <- lift (format_1f_val (nozzle_temp data)) ;;
      bed <- lift (format_1f_val (bed_temp data)) ;;
      print (LnStatus (printer_status data) nozzle bed)
  end.

(** One turn of [while True]: the body under [except Exception]. *)
Definition iteration (env : cycle_env) : M unit :=
  try_except (cycle env) (fun e => print (LnLoopError e)).

(** The first turns of the loop, one per element of [envs]; the loop has
    no exit, and [time.sleep(5)] only spends time. *)
Fixpoint run (envs : list cycle_env) : M unit :=
  match envs with
  | [] => ret tt
  | env :: rest => iteration env ;; run rest
  end.

(** ** Notions used in the statements *)

Local Open Scope nat_scope.

Fixpoint no_H (s : string) : bool :=
  match s with
  | EmptyString => true
  | String c rest => negb (Ascii.eqb c "H") && no_H rest
  end.

Definition is_trained_line (l : line) : bool :=
  match l with
  | LnTrained => true
  | _ => false
  end.

(** How many times the training message has been printed. *)
Definition trainings (s : service) : nat :=
  List.length (filter is_trained_line (stdout s)).

(** The anomaly model: buffer, forest, flag, and the number of fits. *)
Definition detector_of (s : service)
  : list pyval * option model * bool * nat :=
  (temp_buffer s, isolation_forest s, model_trained s, trainings s).

(** Two states that agree on the store, the status file and the anomaly
    model; the alert log and the console may have grown. *)
Definition same_core (s s' : service) : Prop :=
  db s' = db s /\ status_file s' = status_file s
  /\ detector_of s' = detector_of s.

(** The alerts [check_immediate_failures] builds from a reading. *)
Definition immediate_of (data : reading) : list string :=
  (if (printer_status data =? "error")%string
   then [hard_failure_alert (timestamp data)] else [])
  ++ (if (filament_status data =? "jammed")%string
      then [filament_jam_alert (timestamp data)] else []).

(** The effect of one [check_predictive_anomalies] on the anomaly model,
    whatever it returns or raises. *)
Definition observe (v : pyval) (d : list pyval * option model * bool * nat)
  : list pyval * option model * bool * nat :=
  let '(buf, forest, trained, k) := d in
  let buf' := deque_append maxlen v buf in
  if (List.length buf' <? 20)%nat then (buf', forest, trained, k)
  else if negb trained && (30 <=? List.length buf')%nat then
    match fit (firstn 30 buf') with
    | Ret m => (buf', Some m, true, S k)
    | Raise _ => (buf', forest, trained, k)
    end
  else (buf', forest, trained, k).

(** What a turn does to the store and to the anomaly model. *)
Definition turn_effect (env : cycle_env) (s s' : service) : Prop :=
  match http env with
  | Ret data =>
      if db_up env then
        db s' = db s ++ [data]
        /\ detector_of s' = observe (nozzle_temp data) (detector_of s)
      else same_core s s'
  | Raise _ => same_core s s'
  end.

(** The temperatures that reach the anomaly model during [envs]: those
    of the turns whose poll and insert both succeed. *)
Definition observed (envs : list cycle_env) : list pyval :=
  flat_map (fun env =>
              match http env with
              | Ret data => if db_up env then [nozzle_temp data] else []
              | Raise _ => []
              end) envs.

Definition detector_buffer (d : list pyval * option model * bool * nat)
  : list pyval := fst (fst (fst d)).

(** The anomaly model after the values [vs], from a fresh service. *)
Definition after (vs : list pyval) : list pyval * option model * bool * nat :=
  fold_left (fun d v => observe v d) vs ([], None, false, 0).

(** The readings that reach the table during [envs]. *)
Definition stored (envs : list cycle_env) : list reading :=
  flat_map (fun env =>
              match http env with
              | Ret data => if db_up env then [data] else []
              | Raise _ => []
              end) envs.

(** The records [check_immediate_failures] writes to the alert log. *)
Definition immediate_log (data : reading) : list (level * string) :=
  (if (printer_status data =? "error")%string
   then [(ERROR, ("HARD_FAILURE|" ++ timestamp data ++ "|" ++ printer_status data
                  ++ "|Printer error state")%string)]
   else [])
  ++ (if (filament_status data =? "jammed")%string
      then [(WARNING, ("FILAMENT_JAM|" ++ timestamp data ++ "|"
                       ++ filament_status data ++ "|Filament blockage")%string)]
      else []).

(** The record [check_predictive_anomalies] writes when it returns an
    alert, and nothing otherwise. *)
Definition predictive_log (v : pyval) (ts : string)
    (o : outcome (list string)) : list (level * string) :=
  match o, v with
  | Ret (_ :: _), PyNum q =>
      [(WARNING, ("PREDICTIVE_ALERT|" ++ ts ++ "|" ++ format_1f q
                  ++ "|Overheating detected")%string)]
  | _, _ => []
  end.

(** The training message, if the flag was set between [s] and [s']. *)
Definition trained_line (s s' : service) : list line :=
  if negb (model_trained s) && model_trained s' then [LnTrained] else [].

(** The last line a completed turn prints: the status line, or the error
    of a temperature that cannot be rendered. *)
Definition final_line (data : reading) : line :=
  match format_1f_val (nozzle_temp data), format_1f_val (bed_temp data) with
  | Ret nozzle, Ret bed => LnStatus (printer_status data) nozzle bed
  | Raise e, _ => LnLoopError e
  | Ret _, Raise e => LnLoopError e
  end.

(** [s'] is [s] with [lines] printed and [records] logged. *)
Definition grown (s s' : service) (lines : list line)
    (records : list (level * string)) : Prop :=
  db s' = db s /\ status_file s' = status_file s
  /\ temp_buffer s' = temp_buffer s /\ isolation_forest s' = isolation_forest s
  /\ model_trained s' = model_trained s
  /\ stdout s' = stdout s ++ lines
  /\ alerts_log s' = alerts_log s ++ records.

(** A string without the character [c]. *)
Fixpoint lacks (c : ascii) (s : string) : bool :=
  match s with
  | EmptyString => true
  | String c' rest => negb (Ascii.eqb c' c) && lacks c rest
  end.

(** ** Properties *)

(** *** Text of the alerts *)

Lemma no_H_app (a b : string) : no_H (a ++ b) = no_H a && no_H b.
Proof.
  induction a as [|c a IH]; simpl; [reflexivity|].
  rewrite IH. now rewrite andb_assoc.
Qed.

Lemma contains_skip (pre rest : string) :
  no_H pre = true ->
  contains "Hard Failure" (pre ++ rest) = contains "Hard Failure" rest.
Proof.
  induction pre as [|c pre IH]; intros Hpre; [reflexivity|].
  simpl in Hpre. apply andb_prop in Hpre as [Hc Hrest].
  change ((String c pre ++ rest)%string) with (String c (pre ++ rest)).
  cbn [contains]. rewrite (IH Hrest).
  replace (String.prefix "Hard Failure" (String c (pre ++ rest))) with false;
    [reflexivity|].
  cbn [String.prefix]. destruct (ascii_dec "H" c) as [<-|_]; [|reflexivity].
  discriminate Hc.
Qed.

Lemma no_H_uint (d : Decimal.uint) : no_H (NilEmpty.string_of_uint d) = true.
Proof. induction d; simpl; auto. Qed.

Lemma no_H_format_1f (q : Q) : no_H (format_1f q) = true.
Proof.
  unfold format_1f, decimal. rewrite !no_H_app, !no_H_uint.
  destruct (Qlt_le_dec q 0); reflexivity.
Qed.

Lemma hard_failure_alert_marked (ts : string) :
  contains "Hard Failure" (hard_failure_alert ts) = true.
Proof. reflexivity. Qed.

Lemma filament_jam_alert_text (ts : string) :
  contains "Hard Failure" (filament_jam_alert ts) = contains "Hard Failure" ts.
Proof. unfold filament_jam_alert. now apply contains_skip. Qed.

Lemma predictive_alert_text (q : Q) (ts : string) :
  contains "Hard Failure" (predictive_alert (format_1f q) ts)
  = contains "Hard Failure" ts.
Proof.
  unfold predictive_alert.
  rewrite contains_skip by reflexivity.
  rewrite contains_skip by apply no_H_format_1f.
  rewrite contains_skip by reflexivity.
  now apply contains_skip.
Qed.

(** *** Frame lemmas *)

Lemma same_core_refl (s : service) : same_core s s.
Proof. unfold same_core. auto. Qed.

Lemma same_core_trans (s1 s2 s3 : service) :
  same_core s1 s2 -> same_core s2 s3 -> same_core s1 s3.
Proof. unfold same_core. intuition congruence. Qed.

Lemma same_core_print (l : line) (s : service) :
  is_trained_line l = false ->
  same_core s (set_stdout (fun out => out ++ [l]) s).
Proof.
  intros Hl. unfold same_core, detector_of, trainings. simpl.
  rewrite filter_app. simpl. rewrite Hl, app_nil_r. auto.
Qed.

Ltac frame := unfold same_core, detector_of, trainings; simpl; auto.

Ltac munfold :=
  unfold bind, ret, raise, lift, gets, modify, print, logging, try_except in *.

Lemma print_alerts_ret (alerts : list string) (s : service) :
  exists s', print_alerts alerts s = (Ret tt, s') /\ same_core s s'.
Proof.
  revert s. induction alerts as [|a alerts IH]; intros s.
  - exists s. split; [reflexivity | apply same_core_refl].
  - destruct (IH (set_stdout (fun out => out ++ [LnAlert a]) s)) as (s' & E & F).
    exists s'. split.
    + cbn [print_alerts]. munfold. exact E.
    + eapply same_core_trans; [|exact F]. now apply same_core_print.
Qed.

Lemma check_immediate_failures_ret (data : reading) (s : service) :
  exists s',
    check_immediate_failures data s = (Ret (immediate_of data), s')
    /\ same_core s s'.
Proof.
  unfold check_immediate_failures, immediate_of. munfold.
  destruct (printer_status data =? "error")%string;
    destruct (filament_status data =? "jammed")%string;
    eexists; (split; [reflexivity|]); frame.
Qed.

(** The alerts [check_predictive_anomalies] can return. *)
Lemma detect_alerts (v : pyval) (ts : string) (s s' : service)
    (alerts : list string) :
  detect v ts s = (Ret alerts, s') ->
  alerts = []
  \/ exists q, v = PyNum q /\ alerts = [predictive_alert (format_1f q) ts].
Proof.
  unfold detect. munfold.
  destruct (isolation_forest s) as [m|]; [|discriminate].
  destruct (predict m v) as [vote|]; [|discriminate].
  destruct v as [q| |]; simpl; try discriminate.
  destruct (vote || _); intros [= <- _]; eauto.
Qed.

Lemma detect_frame (v : pyval) (ts : string) (s : service) :
  same_core s (snd (detect v ts s)).
Proof.
  unfold detect. munfold.
  destruct (isolation_forest s) as [m|]; [|frame].
  destruct (predict m v) as [vote|]; [|frame].
  destruct v as [q| |]; simpl; try solve [frame].
  destruct (vote || _); frame.
Qed.

Lemma check_predictive_anomalies_alerts (data : reading) (s s' : service)
    (alerts : list string) :
  check_predictive_anomalies data s = (Ret alerts, s') ->
  alerts = []
  \/ exists q, nozzle_temp data = PyNum q
               /\ alerts = [predictive_alert (format_1f q) (timestamp data)].
Proof.
  unfold check_predictive_anomalies, train. munfold. cbn beta iota.
  set (s1 := set_temp_buffer _ s).
  destruct (List.length (temp_buffer s1) <? 20)%nat.
  { intros [= <- _]. now left. }
  destruct (negb (model_trained s1) && _).
  - destruct (fit _) as [m|]; [|discriminate]. simpl.
    apply detect_alerts.
  - destruct (model_trained s1).
    + apply detect_alerts.
    + intros [= <- _]. now left.
Qed.

Lemma trainings_snoc_trained (s : service) :
  List.length (filter is_trained_line (stdout s ++ [LnTrained]))
  = S (trainings s).
Proof.
  unfold trainings. rewrite filter_app, length_app. simpl. lia.
Qed.

Lemma detect_frame_eq (v : pyval) (ts : string) (s s' : service)
    (o : outcome (list string)) :
  detect v ts s = (o, s') -> same_core s s'.
Proof.
  intros E. pose proof (detect_frame v ts s) as F. now rewrite E in F.
Qed.

Lemma check_predictive_anomalies_eq (data : reading) (s s' : service)
    (o : outcome (list string)) :
  check_predictive_anomalies data s = (o, s') ->
  db s' = db s /\ status_file s' = status_file s
  /\ detector_of s' = observe (nozzle_temp data) (detector_of s).
Proof.
  unfold check_predictive_anomalies, train, observe, detector_of.
  unfold bind at 1. unfold modify at 1.
  unfold bind at 1. unfold gets at 1.
  set (s1 := set_temp_buffer _ s).
  change (temp_buffer s1)
    with (deque_append maxlen (nozzle_temp data) (temp_buffer s)).
  set (buf' := deque_append maxlen (nozzle_temp data) (temp_buffer s)).
  assert (Hbuf : temp_buffer s1 = buf') by reflexivity.
  assert (Htrained : model_trained s1 = model_trained s) by reflexivity.
  assert (Hforest : isolation_forest s1 = isolation_forest s) by reflexivity.
  assert (Hdb : db s1 = db s) by reflexivity.
  assert (Hfile : status_file s1 = status_file s) by reflexivity.
  assert (Hk : trainings s1 = trainings s) by reflexivity.
  clearbody s1.
  destruct (List.length buf' <? 20)%nat.
  { intros [= _ <-]. rewrite Hdb, Hfile, Hforest, Htrained, Hk, Hbuf. auto. }
  unfold bind at 1. unfold gets at 1. rewrite Htrained.
  destruct (model_trained s) eqn:Et; cbn [negb andb].
  - unfold bind at 1. unfold ret at 1.
    unfold bind at 1. unfold gets at 1. rewrite Htrained.
    intros E. apply detect_frame_eq in E.
    unfold same_core, detector_of in E.
    destruct E as (F1 & F2 & F3). injection F3 as F3 F4 F5 F6.
    rewrite F1, F2, F3, F4, F5, F6, Hdb, Hfile, Hforest, Htrained, Hk, Hbuf.
    auto.
  - destruct (30 <=? List.length buf')%nat.
    + unfold bind at 1. unfold bind at 1. unfold gets at 1. rewrite Hbuf.
      unfold bind at 1. unfold lift at 1.
      destruct (fit (firstn 30 buf')) as [m|e].
      * unfold bind at 1. unfold modify at 1. unfold print, modify.
        unfold bind at 1. unfold gets at 1. cbn [model_trained set_stdout set_fitted].
        intros E. apply detect_frame_eq in E.
        unfold same_core, detector_of in E.
        destruct E as (F1 & F2 & F3). injection F3 as F3 F4 F5 F6.
        rewrite F1, F2, F3, F4, F5, F6. unfold trainings at 1. simpl.
        rewrite trainings_snoc_trained, Hdb, Hfile, Hk, Hbuf. auto.
      * intros [= _ <-].
        rewrite Hdb, Hfile, Hforest, Htrained, Hk, Hbuf. auto.
    + unfold bind at 1. unfold ret at 1.
      unfold bind at 1. unfold gets at 1. rewrite Htrained.
      intros [= _ <-].
      rewrite Hdb, Hfile, Hforest, Htrained, Hk, Hbuf. auto.
Qed.

(** *** The published status *)

Lemma update_status_file_ret (t : string) (data : reading)
    (alerts : list string) (s : service) :
  exists s',
    update_status_file t data alerts s = (Ret tt, s')
    /\ status_file s' = dumps (build_status t data alerts)
    /\ db s' = db s /\ detector_of s' = detector_of s.
Proof. eexists. split; [reflexivity|]. simpl. auto. Qed.

Lemma status_line_frame (data : reading) (s : service) :
  exists s',
    try_except
      (nozzle <- lift (format_1f_val (nozzle_temp data)) ;;
       bed <- lift (format_1f_val (bed_temp data)) ;;
       print (LnStatus (printer_status data) nozzle bed))
      (fun e => print (LnLoopError e)) s = (Ret tt, s')
    /\ same_core s s'.
Proof.
  munfold.
  destruct (nozzle_temp data), (bed_temp data); simpl;
    eexists; (split; [reflexivity|]); now apply same_core_print.
Qed.

Lemma iteration_publishes (env : cycle_env) (data : reading)
    (s s0 s1 s2 : service) (imm pred : list string) :
  http env = Ret data ->
  store_data (db_up env) data s = (Ret tt, s0) ->
  check_immediate_failures data s0 = (Ret imm, s1) ->
  check_predictive_anomalies data s1 = (Ret pred, s2) ->
  let s' := snd (iteration env s) in
  status_file s' = dumps (build_status (now env) data (imm ++ pred))
  /\ db s' = db s2 /\ detector_of s' = detector_of s2.
Proof.
  intros Hhttp Hstore Himm Hpred.
  destruct (update_status_file_ret (now env) data (imm ++ pred) s2)
    as (s3 & Hup & Hfile & Hdb & Hdet).
  destruct (print_alerts_ret (imm ++ pred) s3) as (s4 & Hpr & Hfr).
  destruct (status_line_frame data s4) as (s5 & Hline & Hfr5).
  assert (E : iteration env s = (Ret tt, s5)).
  { rewrite <- Hline.
    unfold iteration, cycle. rewrite Hhttp. cbn [poll_simulator].
    unfold try_except. unfold bind at 1. unfold ret at 1.
    unfold bind at 1. rewrite Hstore.
    unfold bind at 1. rewrite Himm.
    unfold bind at 1. rewrite Hpred.
    unfold bind at 1. rewrite Hup.
    unfold bind at 1. rewrite Hpr. reflexivity. }
  cbv zeta. rewrite E. cbn [snd].
  unfold same_core in *. intuition congruence.
Qed.

Lemma system_status_of_cycle (data : reading) (pred : list string) :
  contains "Hard Failure" (timestamp data) = false ->
  (pred = []
   \/ exists q, pred = [predictive_alert (format_1f q) (timestamp data)]) ->
  system_status_of (immediate_of data ++ pred)
  = if (printer_status data =? "error")%string then "error"
    else match immediate_of data ++ pred with
         | [] => "normal"
         | _ :: _ => "warning"
         end.
Proof.
  intros Hts Hpred. unfold system_status_of.
  rewrite existsb_app.
  assert (Hp : existsb (contains "Hard Failure") pred = false).
  { destruct Hpred as [->|[q ->]]; [reflexivity|].
    cbn [existsb]. now rewrite predictive_alert_text, Hts. }
  rewrite Hp, orb_false_r. unfold immediate_of.
  destruct (printer_status data =? "error")%string; [reflexivity|].
  destruct (filament_status data =? "jammed")%string; [|reflexivity].
  cbn [app existsb]. now rewrite filament_jam_alert_text, Hts.
Qed.

(** C1, as the code has it: the [system_status] written to the status
    file is [error] exactly when the printer reports the error state (the
    Hard Failure alert), [warning] when it does not but some alert is
    present, a Filament Jam alert alone included, and [normal] when there
    is no alert. The reading's timestamp is assumed not to spell
    "Hard Failure" itself. *)
Theorem system_status_written (env : cycle_env) (data : reading)
    (s s0 s1 s2 : service) (imm pred : list string) :
  http env = Ret data ->
  store_data (db_up env) data s = (Ret tt, s0) ->
  check_immediate_failures data s0 = (Ret imm, s1) ->
  check_predictive_anomalies data s1 = (Ret pred, s2) ->
  contains "Hard Failure" (timestamp data) = false ->
  exists st,
    status_file (snd (iteration env s)) = dumps st
    /\ active_alerts st = imm ++ pred
    /\ (system_status st = "error" <-> printer_status data = "error")
    /\ (system_status st = "warning"
        <-> printer_status data <> "error" /\ imm ++ pred <> [])
    /\ (system_status st = "normal" <-> imm ++ pred = [])
    /\ (filament_status data = "jammed" -> printer_status data <> "error" ->
        system_status st = "warning").
Proof.
  intros Hhttp Hstore Himm Hpred Hts.
  destruct (iteration_publishes env data s s0 s1 s2 imm pred
              Hhttp Hstore Himm Hpred) as (Hfile & _).
  exists (build_status (now env) data (imm ++ pred)).
  split; [exact Hfile|]. split; [reflexivity|].
  destruct (check_immediate_failures_ret data s0) as (s1' & E & _).
  rewrite E in Himm. injection Himm as <- _.
  cbn [system_status build_status].
  rewrite system_status_of_cycle
    by (auto; destruct (check_predictive_anomalies_alerts _ _ _ _ Hpred)
                as [->|(q & _ & ->)]; eauto).
  unfold immediate_of.
  destruct (String.eqb_spec (printer_status data) "error") as [Hp|Hp];
    destruct (String.eqb_spec (filament_status data) "jammed") as [Hf|Hf];
    cbn [app]; repeat split; intros; try tauto; try discriminate;
    try (destruct pred; [tauto || discriminate | tauto || discriminate]).
Qed.

(** *** One turn of the loop *)

Lemma iteration_effect (env : cycle_env) (s : service) :
  exists s', iteration env s = (Ret tt, s') /\ turn_effect env s s'.
Proof.
  unfold turn_effect.
  destruct (http env) as [data|e] eqn:Hhttp.
  - destruct (db_up env) eqn:Hdb.
    + set (s0 := set_db (fun rows => rows ++ [data]) s).
      assert (Hstore : store_data (db_up env) data s = (Ret tt, s0))
        by now rewrite Hdb.
      destruct (check_immediate_failures_ret data s0) as (s1 & Himm & F1).
      destruct (check_predictive_anomalies data s1) as [[pred|e] s2] eqn:Hpred.
      * pose proof (iteration_publishes env data s s0 s1 s2 _ pred
                      Hhttp Hstore Himm Hpred) as (_ & Hd & Hdet).
        apply check_predictive_anomalies_eq in Hpred as (P1 & _ & P3).
        destruct (iteration env s) as [o s'] eqn:E. cbn [snd] in *.
        assert (o = Ret tt) as ->.
        { unfold iteration, try_except in E.
          destruct (cycle env s) as [[[]|e] sx]; now inversion E. }
        exists s'. split; [reflexivity|].
        unfold same_core in F1. destruct F1 as (F1 & _ & F3).
        rewrite Hd, P1, F1, Hdet, P3, F3. auto.
      * eexists. split.
        { unfold iteration, cycle. rewrite Hhttp. cbn [poll_simulator].
          unfold try_except. unfold bind at 1. unfold ret at 1.
          unfold bind at 1. rewrite Hstore.
          unfold bind at 1. rewrite Himm.
          unfold bind at 1. rewrite Hpred. reflexivity. }
        apply check_predictive_anomalies_eq in Hpred as (P1 & _ & P3).
        unfold same_core in F1. destruct F1 as (F1 & _ & F3).
        unfold detector_of, trainings in *. simpl.
        rewrite filter_app. simpl. rewrite app_nil_r.
        rewrite P1, F1, P3, F3. auto.
    + eexists. split.
      { unfold iteration, cycle, store_data. rewrite Hhttp, Hdb.
        reflexivity. }
      now apply same_core_print.
  - destruct e; (eexists; split;
      [unfold iteration, cycle; rewrite Hhttp; reflexivity|]);
      try (now apply same_core_print).
Qed.

(** *** The loop *)

Lemma iteration_detector (env : cycle_env) (s : service) :
  exists s',
    iteration env s = (Ret tt, s')
    /\ detector_of s'
       = fold_left (fun d v => observe v d) (observed [env]) (detector_of s).
Proof.
  destruct (iteration_effect env s) as (s' & E & T).
  exists s'. split; [exact E|].
  unfold turn_effect, observed, same_core in *. cbn [flat_map].
  destruct (http env); [destruct (db_up env)|]; cbn; tauto.
Qed.

Lemma run_detector (envs : list cycle_env) (s : service) :
  exists s',
    run envs s = (Ret tt, s')
    /\ detector_of s'
       = fold_left (fun d v => observe v d) (observed envs) (detector_of s).
Proof.
  revert s. induction envs as [|env envs IH]; intros s.
  - exists s. split; reflexivity.
  - destruct (iteration_detector env s) as (s1 & E1 & D1).
    destruct (IH s1) as (s' & E & D).
    exists s'. split.
    + cbn [run]. unfold bind. now rewrite E1.
    + replace (observed (env :: envs)) with (observed [env] ++ observed envs)
        by (unfold observed; cbn [flat_map]; now rewrite app_nil_r).
      now rewrite fold_left_app, <- D1.
Qed.

(** *** The buffer *)

Lemma deque_append_lastn (v : pyval) (l : list pyval) :
  deque_append maxlen v (lastn maxlen l) = lastn maxlen (l ++ [v]).
Proof.
  unfold deque_append, lastn. rewrite !length_app, length_skipn.
  cbn [List.length]. unfold maxlen.
  destruct (Nat.ltb_spec 50 (List.length l - (List.length l - 50) + 1)).
  - assert (Hl : 50 <= List.length l) by lia.
    replace (List.length l + 1 - 50) with (S (List.length l - 50)) by lia.
    rewrite skipn_app.
    replace (S (List.length l - 50) - List.length l) with 0 by lia.
    cbn [skipn].
    remember (List.length l - 50) as k eqn:Hk.
    assert (Hlt : k < List.length l) by lia.
    clear Hk H Hl. revert k Hlt.
    induction l as [|x l IH]; intros k Hlt; cbn [List.length] in *; [lia|].
    destruct k as [|k].
    * reflexivity.
    * cbn [skipn]. destruct l as [|y l]; [cbn in Hlt; lia|].
      apply IH. cbn [List.length] in *. lia.
  - replace (List.length l - 50) with 0 by lia.
    replace (List.length l + 1 - 50) with 0 by lia.
    reflexivity.
Qed.

Lemma observe_buffer (v : pyval) (d : list pyval * option model * bool * nat) :
  detector_buffer (observe v d) = deque_append maxlen v (detector_buffer d).
Proof.
  destruct d as [[[buf forest] trained] k]. unfold observe, detector_buffer.
  destruct (_ <? 20)%nat; [reflexivity|].
  destruct (negb trained && _); [|reflexivity].
  destruct (fit _); reflexivity.
Qed.

Lemma fold_observe_buffer (vs : list pyval)
    (forest : option model) (trained : bool) (k : nat) :
  detector_buffer
    (fold_left (fun d v => observe v d) vs ([], forest, trained, k))
  = lastn maxlen vs.
Proof.
  induction vs as [|v vs IH] using rev_ind; [reflexivity|].
  rewrite fold_left_app. cbn [fold_left].
  now rewrite observe_buffer, IH, deque_append_lastn.
Qed.

Lemma length_lastn (vs : list pyval) :
  List.length (lastn maxlen vs) = Nat.min 50 (List.length vs).
Proof. unfold lastn, maxlen. rewrite length_skipn. lia. Qed.

(** *** Training *)

Lemma after_snoc (vs : list pyval) (v : pyval) :
  after (vs ++ [v]) = observe v (after vs).
Proof. unfold after. now rewrite fold_left_app. Qed.

Lemma after_buffer (vs : list pyval) :
  detector_buffer (after vs) = lastn maxlen vs.
Proof. apply fold_observe_buffer. Qed.

Lemma lastn_short (vs : list pyval) :
  List.length vs <= maxlen -> lastn maxlen vs = vs.
Proof.
  intros H. unfold lastn.
  replace (List.length vs - maxlen) with 0 by lia. reflexivity.
Qed.

Lemma after_closed_form (vs : list pyval) (m : model) :
  (30 <= List.length vs -> fit (firstn 30 vs) = Ret m) ->
  after vs
  = (lastn maxlen vs,
     if 30 <=? List.length vs then Some m else None,
     30 <=? List.length vs,
     if 30 <=? List.length vs then 1 else 0).
Proof.
  induction vs as [|v vs IH] using rev_ind; intros Hfit; [reflexivity|].
  rewrite after_snoc. rewrite length_app in *. cbn [List.length] in *.
  rewrite IH.
  2:{ intros Hlen. rewrite <- Hfit by lia. rewrite firstn_app.
      replace (30 - List.length vs) with 0 by lia.
      cbn [firstn]. now rewrite app_nil_r. }
  unfold observe. rewrite deque_append_lastn, length_lastn, length_app.
  cbn [List.length].
  destruct (Nat.leb_spec 30 (List.length vs)) as [H30|H30].
  - replace (30 <=? List.length vs + 1) with true
      by (symmetry; apply Nat.leb_le; lia).
    cbn [negb andb].
    destruct (_ <? 20); reflexivity.
  - cbn [negb andb].
    destruct (Nat.ltb_spec (Nat.min 50 (List.length vs + 1)) 20) as [H20|H20].
    + replace (30 <=? List.length vs + 1) with false
        by (symmetry; apply Nat.leb_gt; lia).
      reflexivity.
    + destruct (Nat.leb_spec 30 (Nat.min 50 (List.length vs + 1))) as [H|H].
      * replace (30 <=? List.length vs + 1) with true
          by (symmetry; apply Nat.leb_le; lia).
        rewrite lastn_short
          by (rewrite length_app; cbn [List.length]; unfold maxlen; lia).
        rewrite Hfit by lia. reflexivity.
      * replace (30 <=? List.length vs + 1) with false
          by (symmetry; apply Nat.leb_gt; lia).
        reflexivity.
Qed.

(** Whatever [fit] does, a set flag means thirty values were seen and a
    forest is stored. *)
Lemma after_trained (vs : list pyval) :
  snd (fst (after vs)) = true ->
  30 <= List.length vs /\ exists m, snd (fst (fst (after vs))) = Some m.
Proof.
  induction vs as [|v vs IH] using rev_ind; [discriminate|].
  rewrite after_snoc, length_app. cbn [List.length].
  pose proof (after_buffer vs) as Hbuf.
  destruct (after vs) as [[[buf forest] trained] k].
  cbn [fst snd detector_buffer] in *. subst buf.
  unfold observe. rewrite deque_append_lastn, length_lastn, length_app.
  cbn [List.length].
  destruct (_ <? 20); cbn [fst snd].
  { intros H. destruct (IH H) as (? & ?). split; [lia|assumption]. }
  destruct trained; cbn [negb andb fst snd].
  { intros _. destruct (IH eq_refl) as (? & ?). split; [lia|assumption]. }
  destruct (Nat.leb_spec 30 (Nat.min 50 (List.length vs + 1))) as [H|H];
    [|discriminate].
  destruct (fit _) as [m|e]; cbn [fst snd]; [|discriminate].
  intros _. split; [lia|eauto].
Qed.

Lemma run_from_init (envs : list cycle_env) (rows : list reading)
    (log : list (level * string)) (file : string) :
  exists s',
    run envs (init rows log file) = (Ret tt, s')
    /\ detector_of s' = after (observed envs).
Proof. apply (run_detector envs (init rows log file)). Qed.

(** *** The anomaly check in a given state *)

Lemma check_predictive_anomalies_untrained (data : reading) (s : service) :
  model_trained s = false ->
  List.length (deque_append maxlen (nozzle_temp data) (temp_buffer s)) < 30 ->
  fst (check_predictive_anomalies data s) = Ret [].
Proof.
  intros Ht Hlen. unfold check_predictive_anomalies.
  unfold bind at 1. unfold modify at 1.
  unfold bind at 1. unfold gets at 1. cbn [temp_buffer set_temp_buffer].
  destruct (_ <? 20); [reflexivity|].
  unfold bind at 1. unfold gets at 1. cbn [model_trained set_temp_buffer].
  rewrite Ht.
  replace (30 <=? _) with false by (symmetry; apply Nat.leb_gt; lia).
  cbn [negb andb]. munfold. cbn [model_trained set_temp_buffer fst].
  now rewrite Ht.
Qed.


(** *** The loop never stops on an exception *)

Lemma iteration_returns (env : cycle_env) (s : service) :
  fst (iteration env s) = Ret tt.
Proof. destruct (iteration_effect env s) as (s' & E & _). now rewrite E. Qed.

Lemma run_returns (envs : list cycle_env) (s : service) :
  fst (run envs s) = Ret tt.
Proof. destruct (run_detector envs s) as (s' & E & _). now rewrite E. Qed.

Lemma run_cons (env : cycle_env) (rest : list cycle_env) (s s' : service) :
  iteration env s = (Ret tt, s') -> run (env :: rest) s = run rest s'.
Proof. intros E. cbn [run]. unfold bind. now rewrite E. Qed.

(** C2, as the code has it: when the insert into the reading store
    fails, the exception reaches the handler of the loop. The rest of the
    turn is skipped: the row is lost, the anomaly model does not see the
    sample, no alert is logged and the status file keeps its previous
    contents. The turn itself returns and the loop goes on with the next
    one. *)
Theorem store_failure_skips_cycle (env : cycle_env) (data : reading)
    (rest : list cycle_env) (s : service) :
  http env = Ret data ->
  db_up env = false ->
  exists s',
    iteration env s = (Ret tt, s')
    /\ db s' = db s
    /\ temp_buffer s' = temp_buffer s
    /\ isolation_forest s' = isolation_forest s
    /\ model_trained s' = model_trained s
    /\ alerts_log s' = alerts_log s
    /\ status_file s' = status_file s
    /\ stdout s' = stdout s ++ [LnLoopError OperationalError]
    /\ run (env :: rest) s = run rest s'.
Proof.
  intros Hhttp Hdb.
  assert (E : iteration env s
              = (Ret tt,
                 set_stdout (fun out => out ++ [LnLoopError OperationalError]) s)).
  { unfold iteration, cycle, store_data. now rewrite Hhttp, Hdb. }
  eexists. split; [exact E|].
  repeat split; try reflexivity. now apply run_cons.
Qed.

(** C9: when the poll fails, whatever the exception, the turn leaves the
    reading store, the buffer, the forest, the trained flag, the alert
    log and the status file as they were, returns normally, and the loop
    goes on with the next turn. *)
Theorem fetch_failure_skips_cycle (env : cycle_env) (e : exn)
    (rest : list cycle_env) (s : service) :
  http env = Raise e ->
  exists s',
    iteration env s = (Ret tt, s')
    /\ db s' = db s
    /\ temp_buffer s' = temp_buffer s
    /\ isolation_forest s' = isolation_forest s
    /\ model_trained s' = model_trained s
    /\ alerts_log s' = alerts_log s
    /\ status_file s' = status_file s
    /\ run (env :: rest) s = run rest s'.
Proof.
  intros Hhttp.
  assert (E : exists l, iteration env s
                        = (Ret tt, set_stdout (fun out => out ++ [l]) s)).
  { unfold iteration, cycle. rewrite Hhttp. destruct e; eexists; reflexivity. }
  destruct E as (l & E).
  eexists. split; [exact E|].
  repeat split; try reflexivity. now apply run_cons.
Qed.

(** C4, as the code has it: the service does not validate the nozzle
    temperature. Whenever the poll and the insert succeed, the reading
    is appended to the store and its nozzle temperature, whatever it is,
    is pushed on the buffer. *)
Theorem sample_buffered_unvalidated (env : cycle_env) (data : reading)
    (s : service) :
  http env = Ret data ->
  db_up env = true ->
  exists s',
    iteration env s = (Ret tt, s')
    /\ db s' = db s ++ [data]
    /\ temp_buffer s' = deque_append maxlen (nozzle_temp data) (temp_buffer s).
Proof.
  intros Hhttp Hdb.
  destruct (iteration_effect env s) as (s' & E & T).
  unfold turn_effect in T. rewrite Hhttp, Hdb in T. destruct T as (T1 & T2).
  exists s'. repeat split; [exact E|exact T1|].
  apply (f_equal detector_buffer) in T2. now rewrite observe_buffer in T2.
Qed.


(** C6, as the code has it: from a fresh service, provided [fit] returns
    on the first thirty values observed, the model is trained when the
    thirtieth value is observed and at no other time: before that the
    flag is false and nothing is fitted; from then on the flag is true,
    the forest is the one fitted on the first thirty values ever
    observed, and the training message has been printed exactly once.
    A set flag is never cleared, whatever [fit] does. *)
Theorem training_once (envs : list cycle_env) (rows : list reading)
    (log : list (level * string)) (file : string) (m : model) :
  (30 <= List.length (observed envs) ->
   fit (firstn 30 (observed envs)) = Ret m) ->
  (exists s',
     run envs (init rows log file) = (Ret tt, s')
     /\ model_trained s' = (30 <=? List.length (observed envs))
     /\ isolation_forest s'
        = (if 30 <=? List.length (observed envs) then Some m else None)
     /\ trainings s' = (if 30 <=? List.length (observed envs) then 1 else 0))
  /\ (forall (s : service) (more : list cycle_env),
        model_trained s = true -> model_trained (snd (run more s)) = true).
Proof.
  intros Hfit. split.
  - destruct (run_from_init envs rows log file) as (s' & E & D).
    exists s'. split; [exact E|].
    rewrite (after_closed_form _ m Hfit) in D.
    unfold detector_of in D. now injection D as _ -> -> ->.
  - intros s more. revert s.
    induction more as [|env more IH]; intros s Ht; [exact Ht|].
    destruct (iteration_detector env s) as (s1 & E1 & D1).
    rewrite (run_cons env more s s1 E1). apply IH.
    apply (f_equal (fun d => snd (fst d))) in D1. cbn [detector_of fst snd] in D1.
    rewrite D1. clear - Ht.
    assert (Hstep : forall v d, snd (fst d) = true ->
                                snd (fst (observe v d)) = true).
    { intros v [[[buf forest] trained] k]. cbn [fst snd]. intros ->.
      unfold observe. cbn [negb andb]. now destruct (_ <? 20). }
    change (model_trained s) with (snd (fst (detector_of s))) in Ht.
    revert Ht. generalize (detector_of s).
    induction (observed [env]) as [|v vs IHv]; intros d Hd; [exact Hd|].
    cbn [fold_left]. apply IHv. now apply Hstep.
Qed.

(** C7: from a fresh service, as long as fewer than thirty values have
    been observed, the current one included, the anomaly check returns
    no alert. As for C5, [s1] is the state in which the loop calls the
    check. *)
Theorem insufficient_data_gate (envs : list cycle_env) (rows : list reading)
    (log : list (level * string)) (file : string) (s s1 : service)
    (data : reading) :
  run envs (init rows log file) = (Ret tt, s) ->
  detector_of s1 = detector_of s ->
  S (List.length (observed envs)) < 30 ->
  fst (check_predictive_anomalies data s1) = Ret [].
Proof.
  intros Hrun Hsame Hlen.
  destruct (run_from_init envs rows log file) as (s' & E & D).
  rewrite Hrun in E. injection E as <-. rewrite <- Hsame in D.
  pose proof (after_buffer (observed envs)) as Hbuf.
  pose proof (after_trained (observed envs)) as Htr.
  rewrite <- D in Hbuf, Htr. cbn [detector_of detector_buffer fst snd] in *.
  apply check_predictive_anomalies_untrained.
  - destruct (model_trained s1); [|reflexivity].
    destruct (Htr eq_refl) as (? & _). lia.
  - rewrite Hbuf, deque_append_lastn, length_lastn, length_app.
    cbn [List.length]. lia.
Qed.

(** C8: from a fresh service the buffer always holds the last fifty
    observed values, so it never grows beyond fifty; pushing on a full
    buffer drops its oldest value. *)
Theorem buffer_bounded (envs : list cycle_env) (rows : list reading)
    (log : list (level * string)) (file : string) :
  temp_buffer (snd (run envs (init rows log file)))
  = lastn maxlen (observed envs)
  /\ List.length (temp_buffer (snd (run envs (init rows log file)))) <= 50
  /\ (forall (v : pyval) (buf : list pyval),
        List.length buf = 50 -> deque_append maxlen v buf = tl buf ++ [v]).
Proof.
  destruct (run_from_init envs rows log file) as (s' & E & D).
  rewrite E. cbn [snd].
  apply (f_equal detector_buffer) in D. rewrite after_buffer in D.
  cbn [detector_of detector_buffer fst] in D.
  split; [exact D|]. split.
  - rewrite D, length_lastn. lia.
  - intros v buf Hlen. unfold deque_append, maxlen.
    rewrite length_app, Hlen. cbn.
    destruct buf; [discriminate|reflexivity].
Qed.

(** C10: the [active_alerts] of a published status list the Hard
    Failure message first, then the Filament Jam message, then the
    predictive message, each only if it was raised. *)
Theorem alerts_order (env : cycle_env) (data : reading)
    (s s0 s1 s2 : service) (imm pred : list string) :
  http env = Ret data ->
  store_data (db_up env) data s = (Ret tt, s0) ->
  check_immediate_failures data s0 = (Ret imm, s1) ->
  check_predictive_anomalies data s1 = (Ret pred, s2) ->
  exists st,
    status_file (snd (iteration env s)) = dumps st
    /\ active_alerts st
       = (if (printer_status data =? "error")%string
          then [hard_failure_alert (timestamp data)] else [])
         ++ (if (filament_status data =? "jammed")%string
             then [filament_jam_alert (timestamp data)] else [])
         ++ pred
    /\ (pred = []
        \/ exists q, nozzle_temp data = PyNum q
                     /\ pred = [predictive_alert (format_1f q) (timestamp data)]).
Proof.
  intros Hhttp Hstore Himm Hpred.
  destruct (iteration_publishes env data s s0 s1 s2 imm pred
              Hhttp Hstore Himm Hpred) as (Hfile & _).
  exists (build_status (now env) data (imm ++ pred)).
  split; [exact Hfile|].
  destruct (check_immediate_failures_ret data s0) as (s1' & E & _).
  rewrite E in Himm. injection Himm as <- _.
  split.
  - cbn [active_alerts build_status]. unfold immediate_of.
    now rewrite <- app_assoc.
  - exact (check_predictive_anomalies_alerts _ _ _ _ Hpred).
Qed.

(** C3, as the code has it: the status file is rewritten in place. It is
    emptied when it is opened and filled when the handle is flushed, so
    a reader can find the previous contents, an empty file, or the new
    text. Once the write is over the file holds exactly the text of the
    status, so that writing the same status again leaves it unchanged. *)
Theorem publish_in_place (t : string) (data : reading)
    (alerts : list string) (s : service) :
  let st := build_status t data alerts in
  visible (dump_steps st) s = [status_file s; ""; dumps st]
  /\ exists s1 s2,
       update_status_file t data alerts s = (Ret tt, s1)
       /\ status_file s1 = dumps st
       /\ update_status_file t data alerts s1 = (Ret tt, s2)
       /\ status_file s2 = status_file s1.
Proof.
  cbv zeta. split; [reflexivity|].
  do 2 eexists. repeat split.
Qed.

(** ** Further properties of the service *)

(** *** What each step prints and logs *)

Ltac grow := unfold grown; simpl; rewrite ?app_nil_r; auto 10.

Lemma grown_refl (s : service) : grown s s [] [].
Proof. grow. Qed.

Lemma grown_trans (s1 s2 s3 : service) (l1 l2 : list line)
    (r1 r2 : list (level * string)) :
  grown s1 s2 l1 r1 -> grown s2 s3 l2 r2 -> grown s1 s3 (l1 ++ l2) (r1 ++ r2).
Proof.
  unfold grown. intros (A1 & A2 & A3 & A4 & A5 & A6 & A7)
                       (B1 & B2 & B3 & B4 & B5 & B6 & B7).
  rewrite B1, B2, B3, B4, B5, B6, B7, A1, A2, A3, A4, A5, A6, A7.
  now rewrite !app_assoc.
Qed.

Lemma print_alerts_grown (alerts : list string) (s : service) :
  exists s',
    print_alerts alerts s = (Ret tt, s') /\ grown s s' (map LnAlert alerts) [].
Proof.
  revert s. induction alerts as [|a alerts IH]; intros s.
  - exists s. split; [reflexivity | apply grown_refl].
  - destruct (IH (set_stdout (fun out => out ++ [LnAlert a]) s)) as (s' & E & G).
    exists s'. split.
    + cbn [print_alerts]. munfold. exact E.
    + change (map LnAlert (a :: alerts)) with ([LnAlert a] ++ map LnAlert alerts).
      change (@nil (level * string)) with (@nil (level * string) ++ []).
      eapply grown_trans; [|exact G]. grow.
Qed.

Lemma check_immediate_failures_grown (data : reading) (s : service) :
  exists s',
    check_immediate_failures data s = (Ret (immediate_of data), s')
    /\ grown s s' [] (immediate_log data).
Proof.
  unfold check_immediate_failures, immediate_of, immediate_log. munfold.
  destruct (printer_status data =? "error")%string;
    destruct (filament_status data =? "jammed")%string;
    eexists; (split; [reflexivity|]); unfold grown; simpl;
    rewrite ?app_nil_r, <- ?app_assoc; auto 10.
Qed.

Lemma detect_grown (v : pyval) (ts : string) (s s' : service)
    (o : outcome (list string)) :
  detect v ts s = (o, s') -> grown s s' [] (predictive_log v ts o).
Proof.
  unfold detect. munfold.
  destruct (isolation_forest s) as [m|]; [|intros [= <- <-]; grow].
  destruct (predict m v) as [vote|]; [|intros [= <- <-]; grow].
  destruct v as [q| |]; simpl; try (intros [= <- <-]; grow).
  destruct (vote || _); intros [= <- <-]; grow.
Qed.

Lemma status_line_grown (data : reading) (s : service) :
  exists s',
    try_except
      (nozzle <- lift (format_1f_val (nozzle_temp data)) ;;
       bed <- lift (format_1f_val (bed_temp data)) ;;
       print (LnStatus (printer_status data) nozzle bed))
      (fun e => print (LnLoopError e)) s = (Ret tt, s')
    /\ grown s s' [final_line data] [].
Proof.
  unfold final_line. munfold.
  destruct (nozzle_temp data), (bed_temp data); simpl;
    eexists; (split; [reflexivity|]); grow.
Qed.

Lemma check_predictive_anomalies_trace (data : reading) (s s' : service)
    (o : outcome (list string)) :
  check_predictive_anomalies data s = (o, s') ->
  db s' = db s /\ status_file s' = status_file s
  /\ stdout s' = stdout s ++ trained_line s s'
  /\ alerts_log s' = alerts_log s
                     ++ predictive_log (nozzle_temp data) (timestamp data) o.
Proof.
  unfold check_predictive_anomalies, train, trained_line.
  unfold bind at 1. unfold modify at 1.
  unfold bind at 1. unfold gets at 1.
  set (s1 := set_temp_buffer _ s).
  assert (Htrained : model_trained s1 = model_trained s) by reflexivity.
  assert (Hdb : db s1 = db s) by reflexivity.
  assert (Hfile : status_file s1 = status_file s) by reflexivity.
  assert (Hout : stdout s1 = stdout s) by reflexivity.
  assert (Hlog : alerts_log s1 = alerts_log s) by reflexivity.
  clearbody s1.
  destruct (_ <? 20).
  { intros [= <- <-]. rewrite Hdb, Hfile, Hout, Hlog, Htrained.
    destruct (model_trained s); simpl; rewrite ?app_nil_r; auto. }
  unfold bind at 1. unfold gets at 1. rewrite Htrained.
  destruct (model_trained s) eqn:Et; cbn [negb andb].
  - unfold bind at 1. unfold ret at 1.
    unfold bind at 1. unfold gets at 1. rewrite Htrained.
    intros E. apply detect_grown in E.
    destruct E as (G1 & G2 & _ & _ & _ & G6 & G7).
    rewrite G1, G2, G6, G7, Hdb, Hfile, Hout, Hlog. auto.
  - destruct (30 <=? _).
    + unfold bind at 1. unfold bind at 1. unfold gets at 1.
      unfold bind at 1. unfold lift at 1.
      destruct (fit _) as [m|e].
      * unfold bind at 1. unfold modify at 1. unfold print, modify.
        unfold bind at 1. unfold gets at 1.
        cbn [model_trained set_stdout set_fitted].
        intros E. apply detect_grown in E.
        destruct E as (G1 & G2 & _ & _ & G5 & G6 & G7).
        rewrite G1, G2, G5, G6, G7. simpl.
        rewrite Hdb, Hfile, Hout, Hlog, app_nil_r. auto.
      * intros [= <- <-]. rewrite Hdb, Hfile, Hout, Hlog, Htrained.
        simpl. rewrite !app_nil_r. auto.
    + unfold bind at 1. unfold ret at 1.
      unfold bind at 1. unfold gets at 1. rewrite Htrained.
      intros [= <- <-]. rewrite Hdb, Hfile, Hout, Hlog, Htrained.
      simpl. rewrite !app_nil_r. auto.
Qed.

(** *** What a turn prints, logs and writes *)

Lemma iteration_trace (env : cycle_env) (data : reading) (s s0 s1 s2 : service)
    (imm : list string) (o : outcome (list string)) :
  http env = Ret data ->
  store_data (db_up env) data s = (Ret tt, s0) ->
  check_immediate_failures data s0 = (Ret imm, s1) ->
  check_predictive_anomalies data s1 = (o, s2) ->
  exists s',
    iteration env s = (Ret tt, s')
    /\ imm = immediate_of data
    /\ db s' = db s ++ [data]
    /\ temp_buffer s' = temp_buffer s2
    /\ isolation_forest s' = isolation_forest s2
    /\ model_trained s' = model_trained s2
    /\ alerts_log s' = alerts_log s ++ immediate_log data
                       ++ predictive_log (nozzle_temp data) (timestamp data) o
    /\ match o with
       | Ret pred =>
           status_file s' = dumps (build_status (now env) data (imm ++ pred))
           /\ stdout s' = stdout s ++ trained_line s s'
                          ++ map LnAlert (imm ++ pred) ++ [final_line data]
       | Raise e =>
           status_file s' = status_file s
           /\ stdout s' = stdout s ++ trained_line s s' ++ [LnLoopError e]
       end.
Proof.
  intros Hhttp Hstore Himm Hpred.
  assert (Hs0 : db_up env = true /\ s0 = set_db (fun rows => rows ++ [data]) s).
  { unfold store_data in Hstore. destruct (db_up env); [|discriminate].
    now injection Hstore as <-. }
  destruct Hs0 as (Hup & Hs0).
  destruct (check_immediate_failures_grown data s0) as (s1' & E & G1).
  rewrite E in Himm. injection Himm as <- <-.
  destruct G1 as (I1 & I2 & I3 & I4 & I5 & I6 & I7).
  destruct (check_predictive_anomalies_trace _ _ _ _ Hpred) as (P1 & P2 & P3 & P4).
  assert (Hline : trained_line s1' s2 = trained_line s s2).
  { unfold trained_line. rewrite I5, Hs0. reflexivity. }
  rewrite Hline in P3.
  assert (D0 : db s0 = db s ++ [data] /\ stdout s0 = stdout s
               /\ alerts_log s0 = alerts_log s /\ status_file s0 = status_file s)
    by (rewrite Hs0; auto).
  destruct D0 as (D1 & D2 & D3 & D4).
  destruct o as [pred|e].
  - destruct (update_status_file_ret (now env) data (immediate_of data ++ pred) s2)
      as (s3 & Hupd & Hfile & Hdb3 & Hdet3).
    assert (G3 : stdout s3 = stdout s2 /\ alerts_log s3 = alerts_log s2).
    { unfold update_status_file, dump_steps, sequence in Hupd. munfold.
      injection Hupd as <-. auto. }
    destruct G3 as (O3 & L3).
    destruct (print_alerts_grown (immediate_of data ++ pred) s3)
      as (s4 & Hpr & (A1 & A2 & A3 & A4 & A5 & A6 & A7)).
    destruct (status_line_grown data s4)
      as (s5 & Hfin & (B1 & B2 & B3 & B4 & B5 & B6 & B7)).
    exists s5. split.
    { rewrite <- Hfin.
      unfold iteration, cycle. rewrite Hhttp. cbn [poll_simulator].
      unfold try_except. unfold bind at 1. unfold ret at 1.
      unfold bind at 1. rewrite Hstore.
      unfold bind at 1. rewrite E.
      unfold bind at 1. rewrite Hpred.
      unfold bind at 1. rewrite Hupd.
      unfold bind at 1. rewrite Hpr. reflexivity. }
    unfold detector_of in Hdet3. injection Hdet3 as T1 T2 T3 _.
    assert (Hflag : trained_line s s5 = trained_line s s2).
    { unfold trained_line. now rewrite B5, A5, T3. }
    rewrite Hflag.
    repeat split.
    + now rewrite B1, A1, Hdb3, P1, I1.
    + now rewrite B3, A3, T1.
    + now rewrite B4, A4, T2.
    + now rewrite B5, A5, T3.
    + rewrite B7, A7, L3, P4, I7, D3, !app_nil_r. now rewrite <- app_assoc.
    + now rewrite B2, A2.
    + rewrite B6, A6, O3, P3, I6, D2, app_nil_r. now rewrite <- !app_assoc.
  - exists (set_stdout (fun out => out ++ [LnLoopError e]) s2). split.
    { unfold iteration, cycle. rewrite Hhttp. cbn [poll_simulator].
      unfold try_except. unfold bind at 1. unfold ret at 1.
      unfold bind at 1. rewrite Hstore.
      unfold bind at 1. rewrite E.
      unfold bind at 1. rewrite Hpred. reflexivity. }
    assert (Hflag : trained_line s (set_stdout (fun out => out ++ [LnLoopError e]) s2)
                    = trained_line s s2) by reflexivity.
    rewrite Hflag. cbn [db temp_buffer isolation_forest model_trained alerts_log
                        status_file stdout set_stdout].
    repeat split.
    + now rewrite P1, I1.
    + rewrite P4, I7, D3. cbn [predictive_log]. now rewrite !app_nil_r.
    + now rewrite P2, I2.
    + rewrite P3, I6, D2, app_nil_r. now rewrite <- !app_assoc.
Qed.

(** *** The reading store *)

Lemma run_db (envs : list cycle_env) (s : service) :
  db (snd (run envs s)) = db s ++ stored envs.
Proof.
  revert s. induction envs as [|env envs IH]; intros s.
  - cbn. now rewrite app_nil_r.
  - destruct (iteration_effect env s) as (s1 & E & T).
    rewrite (run_cons env envs s s1 E), IH.
    unfold turn_effect, same_core, stored in *. cbn [flat_map].
    destruct (http env) as [data|e]; [destruct (db_up env)|].
    + destruct T as (-> & _). now rewrite <- app_assoc.
    + destruct T as (-> & _). reflexivity.
    + destruct T as (-> & _). reflexivity.
Qed.

(** X1: the table only grows. After any number of turns it holds the rows
    it had, followed by the readings of the turns whose poll and insert
    succeeded, in the order of the turns; no other turn touches it. *)
Theorem store_append_only (envs : list cycle_env) (s : service) :
  db (snd (run envs s)) = db s ++ stored envs.
Proof. apply run_db. Qed.

(** *** The alert log and the console *)

Lemma length_immediate_log (data : reading) :
  List.length (immediate_log data) = List.length (immediate_of data).
Proof.
  unfold immediate_log, immediate_of.
  destruct (printer_status data =? "error")%string;
    destruct (filament_status data =? "jammed")%string; reflexivity.
Qed.

(** X3: in a turn that runs to the end, every alert of the published
    status is also logged once and printed once: the alert log grows by
    one record per alert, an ERROR record for the hard failure and
    WARNING records for the others, and the console shows the alerts in
    the order of [active_alerts], followed by the status line. *)
Theorem published_alerts_logged_and_printed (env : cycle_env) (data : reading)
    (s s0 s1 s2 : service) (imm pred : list string) :
  http env = Ret data ->
  store_data (db_up env) data s = (Ret tt, s0) ->
  check_immediate_failures data s0 = (Ret imm, s1) ->
  check_predictive_anomalies data s1 = (Ret pred, s2) ->
  exists s' records,
    iteration env s = (Ret tt, s')
    /\ status_file s' = dumps (build_status (now env) data (imm ++ pred))
    /\ alerts_log s' = alerts_log s ++ records
    /\ records = immediate_log data
                 ++ predictive_log (nozzle_temp data) (timestamp data) (Ret pred)
    /\ List.length records = List.length (imm ++ pred)
    /\ stdout s' = stdout s ++ trained_line s s'
                   ++ map LnAlert (imm ++ pred) ++ [final_line data].
Proof.
  intros Hhttp Hstore Himm Hpred.
  destruct (iteration_trace env data s s0 s1 s2 imm (Ret pred)
              Hhttp Hstore Himm Hpred)
    as (s' & E & -> & _ & _ & _ & _ & Hlog & Hfile & Hout).
  exists s'. eexists. repeat split; try eassumption.
  rewrite !length_app, length_immediate_log. f_equal.
  destruct (check_predictive_anomalies_alerts _ _ _ _ Hpred)
    as [->|(q & -> & ->)]; reflexivity.
Qed.

(** X4: when the anomaly check raises (the forest refuses the value, or
    the value cannot be compared with 225.0), the row is already stored
    and the immediate alerts are already logged, but nothing is
    published: the status file keeps its contents and no alert is
    printed, only the error of the loop. *)
Theorem logged_but_not_published (env : cycle_env) (data : reading)
    (s s0 s1 s2 : service) (imm : list string) (e : exn) :
  http env = Ret data ->
  store_data (db_up env) data s = (Ret tt, s0) ->
  check_immediate_failures data s0 = (Ret imm, s1) ->
  check_predictive_anomalies data s1 = (Raise e, s2) ->
  exists s',
    iteration env s = (Ret tt, s')
    /\ db s' = db s ++ [data]
    /\ alerts_log s' = alerts_log s ++ immediate_log data
    /\ status_file s' = status_file s
    /\ stdout s' = stdout s ++ trained_line s s' ++ [LnLoopError e].
Proof.
  intros Hhttp Hstore Himm Hpred.
  destruct (iteration_trace env data s s0 s1 s2 imm (Raise e)
              Hhttp Hstore Himm Hpred)
    as (s' & E & _ & Hdb & _ & _ & _ & Hlog & Hfile & Hout).
  exists s'. repeat split; try assumption.
  cbn [predictive_log] in Hlog. now rewrite app_nil_r in Hlog.
Qed.

(** *** Values the anomaly check cannot handle *)

Lemma length_deque_append_ge (v : pyval) (buf : list pyval) (n : nat) :
  n <= 49 -> n <= List.length buf ->
  S n <= List.length (deque_append maxlen v buf).
Proof.
  intros Hn Hlen. unfold deque_append, maxlen. rewrite length_app.
  cbn [List.length].
  destruct (Nat.ltb_spec 50 (List.length buf + 1));
    [|rewrite length_app; cbn [List.length]; lia].
  destruct buf as [|x buf]; cbn [app tl List.length] in *; [lia|].
  rewrite length_app. cbn [List.length]. lia.
Qed.

Lemma turn_states (env : cycle_env) (data : reading) (s : service) :
  db_up env = true ->
  exists s0 s1,
    store_data (db_up env) data s = (Ret tt, s0)
    /\ check_immediate_failures data s0 = (Ret (immediate_of data), s1)
    /\ temp_buffer s1 = temp_buffer s
    /\ isolation_forest s1 = isolation_forest s
    /\ model_trained s1 = model_trained s.
Proof.
  intros Hup. rewrite Hup.
  destruct (check_immediate_failures_grown data
              (set_db (fun rows => rows ++ [data]) s))
    as (s1 & E & (_ & _ & G3 & G4 & G5 & _)).
  exists (set_db (fun rows => rows ++ [data]) s), s1.
  repeat split; assumption.
Qed.




Lemma check_predictive_anomalies_fit_raises (data : reading) (s : service)
    (e : exn) :
  model_trained s = false ->
  29 <= List.length (temp_buffer s) ->
  fit (firstn 30 (deque_append maxlen (nozzle_temp data) (temp_buffer s)))
  = Raise e ->
  check_predictive_anomalies data s
  = (Raise e, set_temp_buffer (deque_append maxlen (nozzle_temp data)) s).
Proof.
  intros Ht Hlen Hfit.
  pose proof (length_deque_append_ge (nozzle_temp data) (temp_buffer s) 29
                ltac:(lia) Hlen) as Hlen'.
  unfold check_predictive_anomalies, train.
  unfold bind at 1. unfold modify at 1.
  unfold bind at 1. unfold gets at 1. cbn [temp_buffer set_temp_buffer].
  replace (_ <? 20) with false by (symmetry; apply Nat.ltb_ge; lia).
  unfold bind at 1. unfold gets at 1. cbn [model_trained set_temp_buffer].
  rewrite Ht.
  replace (30 <=? _) with true by (symmetry; apply Nat.leb_le; lia).
  cbn [negb andb]. munfold. cbn [temp_buffer set_temp_buffer].
  now rewrite Hfit.
Qed.

(** X6: training is retried, not abandoned. If [fit] raises when the
    buffer has reached thirty values, the flag stays false and the forest
    is left as it was; the turn has stored and buffered the reading but
    publishes no status. The buffer still holds thirty values or more, so
    the next turn calls [fit] again. *)
Theorem failed_fit_is_retried (env : cycle_env) (data : reading)
    (s : service) (e : exn) :
  http env = Ret data ->
  db_up env = true ->
  model_trained s = false ->
  29 <= List.length (temp_buffer s) ->
  fit (firstn 30 (deque_append maxlen (nozzle_temp data) (temp_buffer s)))
  = Raise e ->
  exists s',
    iteration env s = (Ret tt, s')
    /\ model_trained s' = false
    /\ isolation_forest s' = isolation_forest s
    /\ db s' = db s ++ [data]
    /\ temp_buffer s' = deque_append maxlen (nozzle_temp data) (temp_buffer s)
    /\ 30 <= List.length (temp_buffer s')
    /\ status_file s' = status_file s
    /\ stdout s' = stdout s ++ [LnLoopError e].
Proof.
  intros Hhttp Hup Ht Hlen Hfit.
  destruct (turn_states env data s Hup) as (s0 & s1 & Hstore & Himm & B & F & T).
  assert (Hpred : check_predictive_anomalies data s1
                  = (Raise e,
                     set_temp_buffer (deque_append maxlen (nozzle_temp data)) s1)).
  { apply check_predictive_anomalies_fit_raises; congruence. }
  destruct (iteration_trace env data s s0 s1 _ _ (Raise e)
              Hhttp Hstore Himm Hpred)
    as (s' & E & _ & Hdb & Hbuf & Hfor & Htr & Hlog & Hfile & Hout).
  cbn [temp_buffer isolation_forest model_trained set_temp_buffer] in *.
  exists s'. repeat split; try assumption; try congruence.
  - rewrite Hbuf, B. apply (length_deque_append_ge _ _ 29); [lia | exact Hlen].
  - unfold trained_line in Hout. rewrite Htr, T, Ht in Hout. exact Hout.
Qed.

(** *** The flag, the forest and the training message *)

Lemma after_flag_forest (vs : list pyval) :
  match after vs with
  | (_, forest, trained, k) =>
      if trained then forest <> None /\ k = 1 else forest = None /\ k = 0
  end.
Proof.
  induction vs as [|v vs IH] using rev_ind; [cbn; auto|].
  rewrite after_snoc.
  destruct (after vs) as [[[buf forest] trained] k].
  unfold observe.
  destruct (_ <? 20); [exact IH|].
  destruct trained; cbn [negb andb]; [exact IH|].
  destruct (30 <=? _); [|exact IH].
  destruct (fit _) as [m|e]; [|exact IH].
  split; [discriminate | now destruct IH as (_ & ->)].
Qed.

(** X7: whatever [fit] does, after any number of turns of a fresh service
    the flag is set exactly when a forest is stored, which is exactly when
    the training message has been printed; the message is printed at most
    once, and never before thirty values were observed. In particular
    [predict] is never called on a forest that was not fitted. *)
Theorem flag_forest_message_agree (envs : list cycle_env) (rows : list reading)
    (log : list (level * string)) (file : string) :
  let s' := snd (run envs (init rows log file)) in
  (model_trained s' = true <-> isolation_forest s' <> None)
  /\ trainings s' = (if model_trained s' then 1 else 0)
  /\ (model_trained s' = true -> 30 <= List.length (observed envs)).
Proof.
  destruct (run_from_init envs rows log file) as (s' & E & D).
  rewrite E. cbn [snd].
  pose proof (after_flag_forest (observed envs)) as Inv.
  pose proof (after_trained (observed envs)) as Htr.
  rewrite <- D in Inv, Htr. cbn [detector_of fst snd] in *.
  destruct (model_trained s'); destruct Inv as (Hf & Hk).
  - split; [tauto|]. split; [exact Hk|]. intros _. now destruct (Htr eq_refl).
  - split; [|split; [exact Hk | discriminate]].
    split; [discriminate | intros H; now destruct H].
Qed.

(** *** Texts the substring tests look for *)

Lemma contains_skip_char (c : ascii) (needle pre rest : string) :
  lacks c pre = true ->
  contains (String c needle) (pre ++ rest) = contains (String c needle) rest.
Proof.
  induction pre as [|c' pre IH]; intros Hpre; [reflexivity|].
  simpl in Hpre. apply andb_prop in Hpre as [Hc Hrest].
  change ((String c' pre ++ rest)%string) with (String c' (pre ++ rest)).
  cbn [contains]. rewrite (IH Hrest).
  replace (String.prefix (String c needle) (String c' (pre ++ rest))) with false;
    [reflexivity|].
  cbn [String.prefix]. destruct (ascii_dec c c') as [<-|_]; [|reflexivity].
  rewrite Ascii.eqb_refl in Hc. discriminate Hc.
Qed.

Lemma contains_app_r (needle pre rest : string) :
  contains needle rest = true -> contains needle (pre ++ rest) = true.
Proof.
  intros H. induction pre as [|c pre IH]; [exact H|].
  change ((String c pre ++ rest)%string) with (String c (pre ++ rest)).
  cbn [contains]. rewrite IH. apply orb_true_r.
Qed.

Lemma alerts_end_with_timestamp (needle ts temp : string) :
  contains needle ts = true ->
  contains needle (hard_failure_alert ts) = true
  /\ contains needle (filament_jam_alert ts) = true
  /\ contains needle (predictive_alert temp ts) = true.
Proof.
  intros H. unfold hard_failure_alert, filament_jam_alert, predictive_alert.
  repeat split; repeat apply contains_app_r; exact H.
Qed.

(** X8: the test for a hard failure reads the whole message, timestamp
    included. If the timestamp of a reading itself contains the text
    "Hard Failure", any alert at all, a filament jam or a predictive
    alert alone, makes the status [error]. *)
Theorem marked_timestamp_reports_error (data : reading) (pred : list string) :
  contains "Hard Failure" (timestamp data) = true ->
  (pred = [] \/ exists temp, pred = [predictive_alert temp (timestamp data)]) ->
  immediate_of data ++ pred <> [] ->
  system_status_of (immediate_of data ++ pred) = "error".
Proof.
  intros Hts Hpred Hne. unfold system_status_of.
  replace (existsb (contains "Hard Failure") (immediate_of data ++ pred))
    with true; [reflexivity|].
  symmetry. rewrite existsb_app. unfold immediate_of in *.
  destruct (alerts_end_with_timestamp "Hard Failure" (timestamp data) ""
              Hts) as (_ & Hjam & _).
  destruct (printer_status data =? "error")%string; [reflexivity|].
  destruct (filament_status data =? "jammed")%string.
  - cbn [app existsb]. now rewrite Hjam.
  - destruct Hpred as [->|(temp & ->)]; [now destruct Hne|].
    cbn [app existsb].
    destruct (alerts_end_with_timestamp "Hard Failure" (timestamp data) temp
                Hts) as (_ & _ & ->).
    reflexivity.
Qed.

(** *** The service seen from the dashboard *)

Lemma jam_alert_widget (ts : string) :
  contains "Hard Failure" ts = false ->
  contains "Predictive Alert" ts = false ->
  alert_widget (filament_jam_alert ts) = StError ("🔴 " ++ filament_jam_alert ts).
Proof.
  intros Hhf Hpa. unfold alert_widget.
  rewrite filament_jam_alert_text, Hhf.
  assert (E : contains "Predictive Alert" (filament_jam_alert ts) = false).
  { unfold filament_jam_alert. rewrite contains_skip_char by reflexivity.
    exact Hpa. }
  rewrite E. reflexivity.
Qed.

(** X9: the dashboard recognises every alert the service writes. For a
    timestamp that contains neither "Hard Failure" nor "Predictive
    Alert", a hard failure message and a filament jam message are shown
    as errors and a predictive message as a warning; none falls to the
    informational fallback. *)
Theorem dashboard_renders_service_alerts (ts : string) (q : Q) :
  contains "Hard Failure" ts = false ->
  contains "Predictive Alert" ts = false ->
  alert_widget (hard_failure_alert ts) = StError ("🔴 " ++ hard_failure_alert ts)
  /\ alert_widget (filament_jam_alert ts)
     = StError ("🔴 " ++ filament_jam_alert ts)
  /\ alert_widget (predictive_alert (format_1f q) ts)
     = StWarning ("🟡 " ++ predictive_alert (format_1f q) ts).
Proof.
  intros Hhf Hpa. split; [reflexivity|]. split.
  - now apply jam_alert_widget.
  - unfold alert_widget. rewrite predictive_alert_text, Hhf. reflexivity.
Qed.


(** The caption of the dashboard never falls to its fallback on a status
    computed by the service. *)
Lemma dashboard_caption_known (alerts : list string) :
  status_caption (system_status_of alerts)
  = StCaption (if existsb (contains "Hard Failure") alerts then "🔴 System Status: Error"
               else match alerts with
                    | [] => "🟢 System Status: Normal"
                    | _ :: _ => "🟡 System Status: Warning"
                    end).
Proof.
  unfold system_status_of.
  destruct (existsb _ alerts); [reflexivity|]. now destruct alerts.
Qed.

End Service.


(** ** The dashboard *)

Lemma slice_from_last {A : Type} (n : Z) (l : list A) :
  (0 < n < Z.of_nat (List.length l))%Z ->
  slice_from (- n) l = lastn (Z.to_nat n) l.
Proof.
  intros H. unfold slice_from, lastn.
  replace (- n <? 0)%Z with true by (symmetry; apply Z.ltb_lt; lia).
  f_equal. lia.
Qed.

Lemma slice_from_skip {A : Type} (n : Z) (l : list A) :
  (0 <= n)%Z -> slice_from n l = skipn (Z.to_nat n) l.
Proof.
  intros H. unfold slice_from.
  replace (n <? 0)%Z with false by (symmetry; apply Z.ltb_ge; lia).
  destruct (Z.le_ge_cases n (Z.of_nat (List.length l))) as [Hle|Hge].
  - now rewrite Z.min_l.
  - rewrite Z.min_r by assumption. rewrite Nat2Z.id.
    rewrite skipn_all. symmetry. apply skipn_all2. lia.
Qed.

(** X11: with a positive [count], [load_recent_alerts] looks at the last
    [count] lines of the log only: it returns their stripped texts in file
    order, without those that are blank, so at most [count] entries, none
    of them empty. Blank lines among the last [count] are not made up for
    by earlier lines. *)
Theorem recent_alerts_last_count (strip : string -> string)
    (lines : list string) (count : Z) :
  (0 < count)%Z ->
  let result := fst (load_recent_alerts strip (Some (Ret lines)) count) in
  result = map strip (filter (fun line => nonempty (strip line))
                        (lastn (Z.to_nat count) lines))
  /\ (List.length result <= Z.to_nat count)%nat
  /\ Forall (fun alert => nonempty alert = true) result.
Proof.
  intros Hcount. cbv zeta. cbn [load_recent_alerts fst].
  assert (E : (if (count <? Z.of_nat (List.length lines))%Z
               then slice_from (- count) lines else lines)
              = lastn (Z.to_nat count) lines).
  { destruct (Z.ltb_spec count (Z.of_nat (List.length lines))).
    - apply slice_from_last. lia.
    - unfold lastn. replace (List.length lines - Z.to_nat count)%nat with 0%nat by lia.
      reflexivity. }
  rewrite E. split; [reflexivity|]. split.
  - rewrite length_map.
    etransitivity; [apply filter_length_le|].
    unfold lastn. rewrite length_skipn. lia.
  - apply Forall_map. apply Forall_forall. intros line Hin.
    apply filter_In in Hin. tauto.
Qed.

(** X12: with [count] zero or negative there is no limit: the slice
    [lines[-count:]] then starts from the front, so that every line but
    the first [-count] is returned, and with [count = 0] the whole log. *)
Theorem recent_alerts_without_limit (strip : string -> string)
    (lines : list string) (count : Z) :
  (count <= 0)%Z ->
  fst (load_recent_alerts strip (Some (Ret lines)) count)
  = map strip (filter (fun line => nonempty (strip line))
                 (skipn (Z.to_nat (- count)) lines)).
Proof.
  intros Hcount. cbn [load_recent_alerts fst]. do 2 f_equal.
  destruct (Z.ltb_spec count (Z.of_nat (List.length lines))).
  - apply slice_from_skip. lia.
  - assert (Hl : List.length lines = 0%nat) by lia.
    destruct lines; [|discriminate]. now rewrite skipn_nil.
Qed.

(** ** The simulator *)

Lemma qmod_bounds_300 (x : Q) : 0 <= qmod x 300 /\ qmod x 300 < 300.
Proof.
  unfold qmod.
  pose proof (Qfloor_le (x / 300)) as H1.
  pose proof (Qlt_floor (x / 300)) as H2.
  rewrite inject_Z_plus in H2. change (inject_Z 1) with 1 in H2.
  set (f := inject_Z (Qfloor (x / 300))) in *.
  assert (E : x / 300 == x * (1 # 300)) by (unfold Qdiv; reflexivity).
  rewrite E in H1, H2. split; lra.
Qed.

Lemma py_int_floor (x : Q) : 0 <= x -> py_int x = Qfloor x.
Proof.
  destruct x as [n d]. unfold Qle, py_int, Qfloor. simpl. intros H.
  apply Z.quot_div_nonneg; lia.
Qed.

Lemma schedule_at (elapsed : Q) :
  get_current_state elapsed
  = py_index states (Qfloor (qmod elapsed 300 / 60)).
Proof.
  unfold get_current_state.
  change (inject_Z (Z.of_nat (List.length states)) * state_cycle_duration) with 300.
  change state_cycle_duration with 60.
  rewrite py_int_floor; [reflexivity|].
  destruct (qmod_bounds_300 elapsed) as (H & _).
  assert (E : qmod elapsed 300 / 60 == qmod elapsed 300 * (1 # 60)) by reflexivity.
  rewrite E. lra.
Qed.

Lemma schedule_of (elapsed : Q) :
  let r := qmod elapsed 300 in
  0 <= r /\ r < 300
  /\ get_current_state elapsed
     = Some (if Qlt_le_dec r 60 then "idle"
             else if Qlt_le_dec r 120 then "printing"
             else if Qlt_le_dec r 180 then "anomaly"
             else if Qlt_le_dec r 240 then "error"
             else "printing")%string.
Proof.
  cbv zeta.
  destruct (qmod_bounds_300 elapsed) as (H0 & H300).
  split; [exact H0|]. split; [exact H300|].
  rewrite schedule_at.
  set (r := qmod elapsed 300) in *.
  pose proof (Qfloor_le (r / 60)) as F1.
  pose proof (Qlt_floor (r / 60)) as F2.
  rewrite inject_Z_plus in F2. change (inject_Z 1) with 1 in F2.
  set (k := Qfloor (r / 60)) in *.
  assert (E : r / 60 == r * (1 # 60)) by reflexivity.
  rewrite E in F1, F2.
  assert (Hk : (0 <= k < 5)%Z).
  { split.
    - destruct (Z_lt_le_dec k 0) as [Hneg|Hk0]; [|exact Hk0].
      exfalso. assert (inject_Z k <= -1).
      { change (-1) with (inject_Z (-1)). rewrite <- Zle_Qle. lia. }
      lra.
    - destruct (Z_lt_le_dec k 5) as [|Hge]; [assumption|].
      exfalso. assert (5 <= inject_Z k).
      { change 5 with (inject_Z 5). rewrite <- Zle_Qle. lia. }
      lra. }
  assert (Hcases : k = 0%Z \/ k = 1%Z \/ k = 2%Z \/ k = 3%Z \/ k = 4%Z) by lia.
  clearbody k.
  destruct Hcases as [Hc|[Hc|[Hc|[Hc|Hc]]]]; subst k;
    unfold inject_Z in F1, F2; cbn [py_index states];
    repeat (destruct (Qlt_le_dec _ _)); try reflexivity; exfalso; lra.
Qed.

(** X13: the simulator's timetable. With the clock not behind the start,
    [get_current_state] never indexes outside its list: in every period
    of 300 seconds it answers idle for the first minute, then printing,
    anomaly, error and printing again, one minute each. *)
Theorem simulator_schedule (elapsed : Q) :
  0 <= elapsed ->
  let r := qmod elapsed 300 in
  0 <= r /\ r < 300
  /\ get_current_state elapsed
     = Some (if Qlt_le_dec r 60 then "idle"
             else if Qlt_le_dec r 120 then "printing"
             else if Qlt_le_dec r 180 then "anomaly"
             else if Qlt_le_dec r 240 then "error"
             else "printing")%string.
Proof. intros _. apply schedule_of. Qed.

Lemma simulator_statuses (elapsed base_time : Q) (ts : string) (u1 u2 : Q)
    (data : reading) :
  get_printer_data elapsed base_time ts u1 u2 = SimData data ->
  timestamp data = ts
  /\ ((printer_status data = "error" /\ filament_status data = "jammed")
      \/ ((printer_status data = "idle" \/ printer_status data = "printing")
          /\ filament_status data = "ok"))%string.
Proof.
  unfold get_printer_data.
  destruct (get_current_state elapsed) as [state|]; [|discriminate].
  destruct (state =? "idle")%string; [intros [= <-]; cbn; auto|].
  destruct (state =? "printing")%string; [intros [= <-]; cbn; auto|].
  destruct (state =? "anomaly")%string; [intros [= <-]; cbn; auto|].
  destruct (state =? "error")%string; [intros [= <-]; cbn; auto|].
  discriminate.
Qed.

(** X14: with the clock not behind the start, the simulator always
    answers with a reading, never with [None] or an exception. Its
    [printer_status] is idle, printing or error, and its filament is
    jammed exactly when the printer is in the error state. *)
Theorem simulator_readings (elapsed base_time : Q) (ts : string) (u1 u2 : Q) :
  0 <= elapsed ->
  exists data,
    get_printer_data elapsed base_time ts u1 u2 = SimData data
    /\ timestamp data = ts
    /\ In (printer_status data) ["idle"; "printing"; "error"]%string
    /\ (filament_status data = "jammed" <-> printer_status data = "error")%string.
Proof.
  intros Hpos.
  destruct (schedule_of elapsed) as (_ & _ & Hstate).
  destruct (get_printer_data elapsed base_time ts u1 u2) as [data| |] eqn:E.
  - exists data. split; [reflexivity|].
    destruct (simulator_statuses _ _ _ _ _ _ E)
      as (Hts & [(Hp & Hf)|([Hp|Hp] & Hf)]);
      rewrite Hp, Hf; cbn; repeat split; auto; discriminate.
  - exfalso. unfold get_printer_data in E. rewrite Hstate in E.
    repeat (destruct (Qlt_le_dec (qmod elapsed 300) _));
      simpl in E; discriminate E.
  - exfalso. unfold get_printer_data in E. rewrite Hstate in E.
    repeat (destruct (Qlt_le_dec (qmod elapsed 300) _));
      simpl in E; discriminate E.
Qed.

(** X15: on the readings of the simulator the service reports [error]
    exactly when a hard failure or a filament jam alert is raised: the
    simulator never jams the filament of a printer that is not in the
    error state, so a jam never stands alone. *)
Theorem simulator_stream_status (elapsed base_time : Q) (ts : string)
    (u1 u2 : Q) (data : reading) (pred : list string) :
  get_printer_data elapsed base_time ts u1 u2 = SimData data ->
  contains "Hard Failure" ts = false ->
  (pred = [] \/ exists q, pred = [predictive_alert (format_1f q) ts]) ->
  (system_status_of (immediate_of data ++ pred) = "error"
   <-> immediate_of data <> [])%string.
Proof.
  intros E Hts Hpred.
  destruct (simulator_statuses _ _ _ _ _ _ E) as (Ets & Hst).
  rewrite <- Ets in Hts, Hpred.
  rewrite (system_status_of_cycle data pred Hts Hpred).
  unfold immediate_of.
  destruct Hst as [(Hp & Hf)|([Hp|Hp] & Hf)]; rewrite Hp, Hf; cbn.
  - split; [discriminate | reflexivity].
  - split; [|now intros H]. destruct pred; discriminate.
  - split; [|now intros H]. destruct pred; discriminate.
Qed.

(** ** The theorems on sample runs

    The forest is [baseline_fit] with [no_vote], the status text is
    [status_text], and the service starts from [init]. *)

(** C1, as stated, fails: a jammed filament on a printing printer raises
    the Filament Jam alert, and the status written is [warning]. *)
Lemma jam_alone_is_warning :
  let s := init (model := list pyval) [] [] "" in
  let jam := filament_jam_alert (timestamp jam_reading) in
  fst (check_immediate_failures jam_reading s) = Ret [jam]
  /\ status_file (snd (iteration baseline_fit no_vote status_text
                         (turn jam_reading) s))
     = status_text (mkStatus jam_reading [jam] clock "warning")
  /\ system_status (build_status clock jam_reading [jam]) <> "error".
Proof. repeat split; try reflexivity. discriminate. Qed.

(** The status written for a failed, jammed and overheating printer. *)
Lemma system_status_written_witness :
  exists st,
    status_file (snd (iteration baseline_fit no_vote status_text
                        (turn failed_hot_reading)
                        (snd (run baseline_fit no_vote status_text warm_up
                                (init [] [] "")))))
    = status_text st
    /\ active_alerts st
       = [hard_failure_alert (timestamp failed_hot_reading);
          filament_jam_alert (timestamp failed_hot_reading)]
         ++ [predictive_alert "230.0" (timestamp failed_hot_reading)]
    /\ (system_status st = "error" <-> printer_status failed_hot_reading = "error")
    /\ (system_status st = "warning"
        <-> printer_status failed_hot_reading <> "error"
            /\ [hard_failure_alert (timestamp failed_hot_reading);
                filament_jam_alert (timestamp failed_hot_reading)]
               ++ [predictive_alert "230.0" (timestamp failed_hot_reading)] <> [])
    /\ (system_status st = "normal"
        <-> [hard_failure_alert (timestamp failed_hot_reading);
             filament_jam_alert (timestamp failed_hot_reading)]
            ++ [predictive_alert "230.0" (timestamp failed_hot_reading)] = [])
    /\ (filament_status failed_hot_reading = "jammed" ->
        printer_status failed_hot_reading <> "error" ->
        system_status st = "warning").
Proof.
  eapply (system_status_written baseline_fit no_vote status_text
            (turn failed_hot_reading) failed_hot_reading);
    vm_compute; reflexivity.
Defined.

(** C2, as stated, fails: with the database down, the sample does not
    reach the buffer and the status file keeps its stale contents. *)
Lemma store_failure_stops_the_turn :
  let s := init (model := list pyval) [] [] "stale" in
  let s' := snd (iteration baseline_fit no_vote status_text
                   (mkEnv (Ret hot_reading) false clock) s) in
  temp_buffer s' = []
  /\ temp_buffer s' <> deque_append maxlen (nozzle_temp hot_reading) (temp_buffer s)
  /\ status_file s' = "stale"
  /\ forall alerts,
       status_file s' <> status_text (build_status clock hot_reading alerts).
Proof.
  repeat split; try reflexivity; try discriminate.
Qed.

(** A turn with the database down, on a service holding a stale status. *)
Lemma store_failure_skips_cycle_witness :
  let env := mkEnv (Ret hot_reading) false clock in
  let s := init (model := list pyval) [] [] "stale" in
  exists s',
    iteration baseline_fit no_vote status_text env s = (Ret tt, s')
    /\ db s' = db s
    /\ temp_buffer s' = temp_buffer s
    /\ isolation_forest s' = isolation_forest s
    /\ model_trained s' = model_trained s
    /\ alerts_log s' = alerts_log s
    /\ status_file s' = status_file s
    /\ stdout s' = stdout s ++ [LnLoopError OperationalError]
    /\ run baseline_fit no_vote status_text [env; turn hot_reading] s
       = run baseline_fit no_vote status_text [turn hot_reading] s'.
Proof.
  exact (store_failure_skips_cycle baseline_fit no_vote status_text
           (mkEnv (Ret hot_reading) false clock) hot_reading
           [turn hot_reading] (init [] [] "stale") eq_refl eq_refl).
Defined.

(** C3, as stated, fails: while the status is being written a reader can
    find an empty file, which is neither the previous text nor the new
    one. *)
Lemma reader_sees_empty_file :
  let previous := build_status clock printing_reading [] in
  let st := build_status clock jam_reading
              [filament_jam_alert (timestamp jam_reading)] in
  let s := init (model := list pyval) [] [] (status_text previous) in
  ~ (forall text,
       In text (visible (dump_steps status_text st) s) ->
       text = status_text previous \/ text = status_text st).
Proof.
  cbv zeta. intros H.
  destruct (H "" (or_intror (or_introl eq_refl))) as [E|E]; discriminate E.
Qed.

(** C4, as stated, fails: a textual temperature and a temperature far out
    of range both end up in the buffer. *)
Lemma unvalidated_samples_in_buffer :
  let s := init (model := list pyval) [] [] "" in
  let s' := snd (run baseline_fit no_vote status_text
                   [turn text_reading; turn far_reading] s) in
  In (PyStr "n/a") (temp_buffer s')
  /\ In (PyNum (-5000)) (temp_buffer s')
  /\ db s' = [text_reading; far_reading].
Proof. cbv zeta. vm_compute. auto. Qed.

(** A textual temperature is stored and buffered. *)
Lemma sample_buffered_unvalidated_witness :
  let s := init (model := list pyval) [] [] "" in
  exists s',
    iteration baseline_fit no_vote status_text (turn text_reading) s = (Ret tt, s')
    /\ db s' = db s ++ [text_reading]
    /\ temp_buffer s' = deque_append maxlen (PyStr "n/a") (temp_buffer s).
Proof.
  exact (sample_buffered_unvalidated baseline_fit no_vote status_text
           (turn text_reading) text_reading (init [] [] "") eq_refl eq_refl).
Defined.


(** C6, as stated, fails when [fit] refuses the first thirty values:
    with a textual value in twenty-ninth place the service is still
    untrained after thirty values; the training happens at the
    seventy-ninth, once the text has left the buffer, on the thirtieth to
    fifty-ninth values. *)
Lemma training_after_a_refused_baseline :
  let first_thirty :=
    firstn 28 warm_up ++ [turn text_reading; turn printing_reading] in
  let envs := first_thirty ++ repeat (turn hot_reading) 49 in
  let s30 := snd (run strict_fit no_vote status_text first_thirty
                    (init [] [] "")) in
  let s78 := snd (run strict_fit no_vote status_text (firstn 78 envs)
                    (init [] [] "")) in
  let s79 := snd (run strict_fit no_vote status_text envs (init [] [] "")) in
  List.length (observed first_thirty) = 30%nat
  /\ model_trained s30 = false /\ isolation_forest s30 = None
  /\ trainings s30 = 0%nat
  /\ model_trained s78 = false
  /\ model_trained s79 = true /\ trainings s79 = 1%nat
  /\ isolation_forest s79 = Some (firstn 30 (skipn 29 (observed envs)))
  /\ isolation_forest s79 <> Some (firstn 30 (observed envs)).
Proof.
  cbv zeta. repeat split; try (vm_compute; reflexivity).
  vm_compute. discriminate.
Qed.

(** Thirty ordinary turns and a hot one: one training, on the thirty
    ordinary values. *)
Lemma training_once_witness :
  (exists s',
     run baseline_fit no_vote status_text (warm_up ++ [turn hot_reading])
       (init [] [] "") = (Ret tt, s')
     /\ model_trained s' = true
     /\ isolation_forest s' = Some (repeat (PyNum (2105 # 10)) 30)
     /\ trainings s' = 1%nat)
  /\ (forall (s : service) (more : list cycle_env),
        model_trained s = true ->
        model_trained (snd (run baseline_fit no_vote status_text more s)) = true).
Proof.
  apply (training_once baseline_fit no_vote status_text
           (warm_up ++ [turn hot_reading]) [] [] ""
           (repeat (PyNum (2105 # 10)) 30)).
  intros _. vm_compute. reflexivity.
Defined.

(** The twenty-ninth value, though above the threshold, raises nothing. *)
Lemma insufficient_data_gate_witness :
  let s := snd (run baseline_fit no_vote status_text (firstn 28 warm_up)
                  (init [] [] "")) in
  let s1 := snd (check_immediate_failures hot_reading
                   (snd (store_data true hot_reading s))) in
  fst (check_predictive_anomalies baseline_fit no_vote hot_reading s1) = Ret [].
Proof.
  cbv zeta.
  apply (insufficient_data_gate baseline_fit no_vote status_text
           (firstn 28 warm_up) [] [] ""
           (snd (run baseline_fit no_vote status_text (firstn 28 warm_up)
                   (init [] [] "")))).
  - vm_compute. reflexivity.
  - vm_compute. reflexivity.
  - vm_compute. lia.
Defined.

(** A timed-out poll on a trained service. *)
Lemma fetch_failure_skips_cycle_witness :
  let env := mkEnv (Raise RequestException) true clock in
  let s := snd (run baseline_fit no_vote status_text warm_up (init [] [] "")) in
  exists s',
    iteration baseline_fit no_vote status_text env s = (Ret tt, s')
    /\ db s' = db s
    /\ temp_buffer s' = temp_buffer s
    /\ isolation_forest s' = isolation_forest s
    /\ model_trained s' = model_trained s
    /\ alerts_log s' = alerts_log s
    /\ status_file s' = status_file s
    /\ run baseline_fit no_vote status_text [env; turn hot_reading] s
       = run baseline_fit no_vote status_text [turn hot_reading] s'.
Proof.
  exact (fetch_failure_skips_cycle baseline_fit no_vote status_text
           (mkEnv (Raise RequestException) true clock) RequestException
           [turn hot_reading]
           (snd (run baseline_fit no_vote status_text warm_up (init [] [] "")))
           eq_refl).
Defined.

(** The three alerts of a failed, jammed and overheating printer, in
    order. *)
Lemma alerts_order_witness :
  exists st,
    status_file (snd (iteration baseline_fit no_vote status_text
                        (turn failed_hot_reading)
                        (snd (run baseline_fit no_vote status_text warm_up
                                (init [] [] "")))))
    = status_text st
    /\ active_alerts st
       = [hard_failure_alert (timestamp failed_hot_reading)]
         ++ [filament_jam_alert (timestamp failed_hot_reading)]
         ++ [predictive_alert "230.0" (timestamp failed_hot_reading)]
    /\ ([predictive_alert "230.0" (timestamp failed_hot_reading)] = []
        \/ exists q,
             nozzle_temp failed_hot_reading = PyNum q
             /\ [predictive_alert "230.0" (timestamp failed_hot_reading)]
                = [predictive_alert (format_1f q) (timestamp failed_hot_reading)]).
Proof.
  eapply (alerts_order baseline_fit no_vote status_text
            (turn failed_hot_reading) failed_hot_reading);
    vm_compute; reflexivity.
Defined.

Example format_1f_230 : format_1f 230 = "230.0".
Proof. reflexivity. Qed.

Example format_1f_quarter : format_1f (1 # 4) = "0.2".
Proof. reflexivity. Qed.

Example format_1f_neg : format_1f (- (2105 # 10)) = "-210.5".
Proof. reflexivity. Qed.

(** ** The further properties on sample runs *)

(** X3 on a failed, jammed and overheating printer, after thirty
    ordinary turns: three alerts, three records, three lines. *)
Lemma published_alerts_logged_and_printed_witness :
  let s := snd (run baseline_fit no_vote status_text warm_up (init [] [] "")) in
  let alerts := [hard_failure_alert (timestamp failed_hot_reading);
                 filament_jam_alert (timestamp failed_hot_reading)]
                ++ [predictive_alert "230.0" (timestamp failed_hot_reading)] in
  exists s' records,
    iteration baseline_fit no_vote status_text (turn failed_hot_reading) s
    = (Ret tt, s')
    /\ status_file s' = status_text (build_status clock failed_hot_reading alerts)
    /\ alerts_log s' = alerts_log s ++ records
    /\ records = immediate_log failed_hot_reading
                 ++ predictive_log (PyNum 230) (timestamp failed_hot_reading)
                      (Ret [predictive_alert "230.0" (timestamp failed_hot_reading)])
    /\ List.length records = List.length alerts
    /\ stdout s' = stdout s ++ trained_line s s'
                   ++ map LnAlert alerts ++ [final_line failed_hot_reading].
Proof.
  cbv zeta.
  eapply (published_alerts_logged_and_printed baseline_fit no_vote status_text
            (turn failed_hot_reading) failed_hot_reading);
    vm_compute; reflexivity.
Defined.

(** X4 on a failed printer that sends a textual temperature to a trained
    service. *)
Lemma logged_but_not_published_witness :
  let s := snd (run baseline_fit no_vote status_text warm_up (init [] [] "")) in
  exists s',
    iteration baseline_fit no_vote status_text (turn failed_text_reading) s
    = (Ret tt, s')
    /\ db s' = db s ++ [failed_text_reading]
    /\ alerts_log s' = alerts_log s ++ immediate_log failed_text_reading
    /\ status_file s' = status_file s
    /\ stdout s' = stdout s ++ trained_line s s' ++ [LnLoopError TypeError].
Proof.
  cbv zeta.
  eapply (logged_but_not_published baseline_fit no_vote status_text
            (turn failed_text_reading) failed_text_reading);
    vm_compute; reflexivity.
Defined.


(** X6 with a forest that refuses text: twenty-eight ordinary values and a
    textual one are buffered when the thirtieth arrives. *)
Lemma failed_fit_is_retried_witness :
  let s := snd (run strict_fit no_vote status_text
                  (firstn 28 warm_up ++ [turn text_reading]) (init [] [] "")) in
  exists s',
    iteration strict_fit no_vote status_text (turn printing_reading) s
    = (Ret tt, s')
    /\ model_trained s' = false
    /\ isolation_forest s' = isolation_forest s
    /\ db s' = db s ++ [printing_reading]
    /\ temp_buffer s'
       = deque_append maxlen (nozzle_temp printing_reading) (temp_buffer s)
    /\ (30 <= List.length (temp_buffer s'))%nat
    /\ status_file s' = status_file s
    /\ stdout s' = stdout s ++ [LnLoopError ValueError].
Proof.
  cbv zeta.
  apply (failed_fit_is_retried strict_fit no_vote status_text
           (turn printing_reading) printing_reading).
  - reflexivity.
  - reflexivity.
  - vm_compute. reflexivity.
  - vm_compute. lia.
  - vm_compute. reflexivity.
Defined.

(** X8 on a jam whose timestamp spells the marker. *)
Lemma marked_timestamp_reports_error_witness :
  system_status_of (immediate_of drill_reading ++ []) = "error".
Proof.
  apply (marked_timestamp_reports_error drill_reading []).
  - reflexivity.
  - left. reflexivity.
  - discriminate.
Defined.

(** X9 on an ISO timestamp. *)
Lemma dashboard_renders_service_alerts_witness :
  let ts := "2024-05-01T10:02:30" in
  alert_widget (hard_failure_alert ts) = StError ("🔴 " ++ hard_failure_alert ts)
  /\ alert_widget (filament_jam_alert ts)
     = StError ("🔴 " ++ filament_jam_alert ts)
  /\ alert_widget (predictive_alert (format_1f 230) ts)
     = StWarning ("🟡 " ++ predictive_alert (format_1f 230) ts).
Proof.
  exact (dashboard_renders_service_alerts "2024-05-01T10:02:30" 230
           eq_refl eq_refl).
Defined.


(** X11: the last two of four lines, one of them blank. *)
Lemma recent_alerts_last_count_witness :
  let result := fst (load_recent_alerts trim (Some (Ret log_lines)) 2) in
  result = map trim (filter (fun line => nonempty (trim line))
                       (lastn (Z.to_nat 2) log_lines))
  /\ (List.length result <= Z.to_nat 2)%nat
  /\ Forall (fun alert => nonempty alert = true) result.
Proof. exact (recent_alerts_last_count trim log_lines 2 eq_refl). Defined.

(** X12: asking for no line gives them all. *)
Lemma recent_alerts_without_limit_witness :
  fst (load_recent_alerts trim (Some (Ret log_lines)) 0)
  = map trim (filter (fun line => nonempty (trim line))
                (skipn (Z.to_nat (- 0)) log_lines)).
Proof.
  apply (recent_alerts_without_limit trim log_lines 0). discriminate.
Defined.

(** X13, X14 and X15 three minutes and five seconds after the start. *)
Lemma simulator_schedule_witness :
  let r := qmod 185 300 in
  0 <= r /\ r < 300
  /\ get_current_state 185
     = Some (if Qlt_le_dec r 60 then "idle"
             else if Qlt_le_dec r 120 then "printing"
             else if Qlt_le_dec r 180 then "anomaly"
             else if Qlt_le_dec r 240 then "error"
             else "printing")%string.
Proof. apply (simulator_schedule 185). discriminate. Defined.

Lemma simulator_readings_witness :
  exists data,
    get_printer_data 185 186 clock (1 # 2) (1 # 3) = SimData data
    /\ timestamp data = clock
    /\ In (printer_status data) ["idle"; "printing"; "error"]%string
    /\ (filament_status data = "jammed" <-> printer_status data = "error")%string.
Proof.
  apply (simulator_readings 185 186 clock (1 # 2) (1 # 3)). discriminate.
Defined.

Lemma simulator_stream_status_witness :
  (system_status_of
     (immediate_of (mkReading clock (PyNum ((2105 # 10) + (1 # 2)))
                      (PyNum ((601 # 10) + (1 # 3))) "error" "jammed"
                      (PyNum (452 # 10))) ++ []) = "error"
   <-> immediate_of (mkReading clock (PyNum ((2105 # 10) + (1 # 2)))
                       (PyNum ((601 # 10) + (1 # 3))) "error" "jammed"
                       (PyNum (452 # 10))) <> [])%string.
Proof.
  apply (simulator_stream_status 185 186 clock (1 # 2) (1 # 3) _ []).
  - reflexivity.
  - reflexivity.
  - left. reflexivity.
Defined.
